(** * The contact-form core of smile-support (contact.ts)

    A shallow embedding of [validateSecurityAnswer], [validateContactForm],
    [verifyRecaptcha], [escapeHtml] and [sendContactEmail], and the
    properties the specification states about them.

    Strings are ECMAScript strings: finite sequences of UTF-16 code units.
    Objects are finite maps from property keys to values.  The two
    asynchronous functions are trees of the calls they issue and the
    settlements they await, run against an arbitrary environment. *)

From Stdlib Require Import NArith ZArith List String Ascii Bool Lia.
From Stdlib Require Import SpecFloat.
From stdpp Require Import base option list gmap.
Import ListNotations.

(** ** ECMAScript strings *)

(** A string value is its sequence of UTF-16 code units. *)
Definition jsstring : Type := list N.

Module Utf8.

(** Source literals are written in this file as they are in the
    TypeScript source, which is UTF-8 text; [units] gives the UTF-16 code
    units of the text that the bytes encode.  A malformed tail (none
    occurs in a literal) is dropped. *)

Definition cont (b : N) : N := N.land b 63.

Definition utf16 (cp : N) : list N :=
  if (cp <? 65536)%N then [cp]
  else
    let v := (cp - 65536)%N in
    [(55296 + N.shiftr v 10)%N; (56320 + N.land v 1023)%N].

Fixpoint units (bytes : list N) : list N :=
  match bytes with
  | [] => []
  | b0 :: r0 =>
    if (b0 <? 128)%N then b0 :: units r0
    else if (b0 <? 224)%N then
      match r0 with
      | b1 :: r1 =>
        utf16 (N.shiftl (N.land b0 31) 6 + cont b1) ++ units r1
      | _ => []
      end
    else if (b0 <? 240)%N then
      match r0 with
      | b1 :: b2 :: r2 =>
        utf16 (N.shiftl (N.land b0 15) 12 + N.shiftl (cont b1) 6 + cont b2)
          ++ units r2
      | _ => []
      end
    else
      match r0 with
      | b1 :: b2 :: b3 :: r3 =>
        utf16 (N.shiftl (N.land b0 7) 18 + N.shiftl (cont b1) 12
               + N.shiftl (cont b2) 6 + cont b3)
          ++ units r3
      | _ => []
      end
  end.

Fixpoint bytes (s : string) : list N :=
  match s with
  | EmptyString => []
  | String a rest => N_of_ascii a :: bytes rest
  end.

End Utf8.

(** [js "..."] is the string value of the literal ["..."]. *)
Definition js (lit : string) : jsstring := Utf8.units (Utf8.bytes lit).
Arguments js lit%_string.

(** The double quote, which a literal of this file cannot hold, and the
    line feed that ends each line of a template literal. *)
Definition DQ : jsstring := [34%N].
Definition LF : jsstring := [10%N].

(** WhiteSpace and LineTerminator code points (ECMA-262, 12.2 and 12.3):
    what [String.prototype.trim] strips and what [\s] matches.  All of them
    are in the Basic Multilingual Plane, one code unit each. *)
Definition isWhiteSpace (c : N) : bool :=
  ((9 <=? c) && (c <=? 13) || (c =? 32) || (c =? 160) || (c =? 5760)
   || (8192 <=? c) && (c <=? 8202) || (c =? 8232) || (c =? 8233)
   || (c =? 8239) || (c =? 8287) || (c =? 12288) || (c =? 65279))%N.

Fixpoint trimStart (s : jsstring) : jsstring :=
  match s with
  | c :: rest => if isWhiteSpace c then trimStart rest else s
  | [] => []
  end.

Fixpoint trimEnd (s : jsstring) : jsstring :=
  match s with
  | c :: rest =>
    match trimEnd rest with
    | [] => if isWhiteSpace c then [] else [c]
    | kept => c :: kept
    end
  | [] => []
  end.

(** [String.prototype.trim]. *)
Definition trim (s : jsstring) : jsstring := trimEnd (trimStart s).

Fixpoint startsWith (s prefix : jsstring) : bool :=
  match prefix, s with
  | [], _ => true
  | p :: prefix', c :: s' => (p =? c)%N && startsWith s' prefix'
  | _ :: _, [] => false
  end.

(** [String.prototype.includes]: the needle starts at some position. *)
Fixpoint includes (s needle : jsstring) : bool :=
  startsWith s needle
  || match s with
     | _ :: rest => includes rest needle
     | [] => false
     end.

(** *** Regular expressions

    The three patterns of the source are a character class and a greedy
    repetition of one: white space one or more times, the full stop, and
    the class of the five characters that [escapeHtml] replaces. *)
Inductive RegExp : Type :=
| Class (p : N -> bool)
| ClassPlus (p : N -> bool).

Fixpoint spanLength (p : N -> bool) (s : jsstring) : nat :=
  match s with
  | c :: rest => if p c then S (spanLength p rest) else 0
  | [] => 0
  end.

(** The length of the match that starts at the head of [s], if there is one. *)
Definition matchLength (r : RegExp) (s : jsstring) : option nat :=
  match r with
  | Class p =>
    match s with
    | c :: _ => if p c then Some 1 else None
    | [] => None
    end
  | ClassPlus p =>
    match spanLength p s with
    | 0 => None
    | n => Some n
    end
  end.

(** [String.prototype.replace] with a global pattern and a replacer
    function: matches are found left to right, each from the end of the
    one before; text between matches is copied.  A match of these patterns
    is never empty, so [steps] = the length of the text is enough. *)
Fixpoint replaceLoop (r : RegExp) (replacer : jsstring -> jsstring)
    (steps : nat) (s : jsstring) : jsstring :=
  match steps with
  | 0 => s
  | S steps' =>
    match s with
    | [] => []
    | c :: rest =>
      match matchLength r s with
      | Some n => replacer (take n s) ++ replaceLoop r replacer steps' (drop n s)
      | None => c :: replaceLoop r replacer steps' rest
      end
    end
  end.

Definition replace (r : RegExp) (replacer : jsstring -> jsstring)
    (s : jsstring) : jsstring :=
  replaceLoop r replacer (length s) s.

(** ** escapeHtml *)

Definition isReserved (c : N) : bool :=
  ((c =? 38) || (c =? 60) || (c =? 62) || (c =? 34) || (c =? 39))%N.

(** The [map] object of [escapeHtml]. *)
Definition escapeMap : gmap jsstring jsstring :=
  <[ js "&" := js "&amp;" ]>
  (<[ js "<" := js "&lt;" ]>
  (<[ js ">" := js "&gt;" ]>
  (<[ DQ := js "&quot;" ]>
  (<[ js "'" := js "&#039;" ]> ∅)))).

(** [a || b] on strings: the empty string is the only falsy one; a missing
    property reads as [undefined], which is falsy too. *)
Definition orElse (a : option jsstring) (b : jsstring) : jsstring :=
  match a with
  | Some ((_ :: _) as v) => v
  | _ => b
  end.

Definition escapeHtml (text : jsstring) : jsstring :=
  replace (Class isReserved) (fun char => orElse (escapeMap !! char) char) text.

(** ** validateSecurityAnswer *)

(** Security quiz answer variants. *)
Definition SECURITY_ANSWER_VARIANTS : list jsstring :=
  [ js "富士山"
  ; js "ふじさん"
  ; js "フジサン"
  ; js "fujisan"
  ; js "mt.fuji"
  ; js "mtfuji"
  ; js "mount fuji" ].

Definition isFullStop (c : N) : bool := (c =? 46)%N.

(** [s.replace(pattern, str)] for a replacement string without [$]. *)
Definition replaceWith (r : RegExp) (str s : jsstring) : jsstring :=
  replace r (fun _ => str) s.

Section SecurityAnswer.

(** [String.prototype.toLowerCase] is the host's: the locale-insensitive
    lower-case mapping of the Unicode Character Database, which is not
    part of the repository.  It is a parameter here. *)
Variable toLowerCase : jsstring -> jsstring.

Definition validateSecurityAnswer (answer : jsstring) : bool :=
  let normalized :=
    replaceWith (Class isFullStop) []
      (replaceWith (ClassPlus isWhiteSpace) []
        (toLowerCase (trim answer))) in
  existsb
    (fun variant =>
       bool_decide
         (normalized =
          replaceWith (Class isFullStop) []
            (replaceWith (ClassPlus isWhiteSpace) [] (toLowerCase variant))))
    SECURITY_ANSWER_VARIANTS.

End SecurityAnswer.

(** The lower-case mapping restricted to Basic Latin: [A]..[Z] go to
    [a]..[z] and every other code unit is kept.  [toLowerCase] agrees with
    it on every string whose cased characters are all Basic Latin letters,
    the seven variants and the answers of the test suite among them. *)
Definition toLowerCaseBasicLatin (s : jsstring) : jsstring :=
  map (fun c => if (65 <=? c)%N && (c <=? 90)%N then (c + 32)%N else c) s.

(** ** Values *)

(** The values a request body can be: what [JSON.parse] yields, and
    [undefined] for an absent one.  A number is an IEEE 754 double. *)
#[warnings="-register-all"]
Inductive JsValue : Type :=
| JUndefined
| JNull
| JBoolean (b : bool)
| JNumber (x : spec_float)
| JString (s : jsstring)
| JArray (elements : list JsValue)
| JObject (props : gmap jsstring JsValue).

Definition typeof (v : JsValue) : jsstring :=
  match v with
  | JUndefined => js "undefined"
  | JBoolean _ => js "boolean"
  | JNumber _ => js "number"
  | JString _ => js "string"
  | JNull | JArray _ | JObject _ => js "object"
  end.

(** ToBoolean. *)
Definition truthy (v : JsValue) : bool :=
  match v with
  | JUndefined | JNull => false
  | JBoolean b => b
  | JNumber (S754_zero _) | JNumber S754_nan => false
  | JNumber _ => true
  | JString s => negb (bool_decide (s = []))
  | JArray _ | JObject _ => true
  end.

Definition isDigit (c : N) : bool := ((48 <=? c) && (c <=? 57))%N.

(** The array index that a property key denotes: a decimal numeral without
    a leading zero. *)
Definition arrayIndex (key : jsstring) : option nat :=
  match key with
  | [] => None
  | c :: rest =>
    if forallb isDigit key && (negb (c =? 48)%N || bool_decide (rest = []))
    then Some (N.to_nat (fold_left (fun n d => (10 * n + (d - 48))%N) key 0%N))
    else None
  end.

(** [v[key]] for a value other than [undefined] and [null], on which the
    read throws (see [member]).  A primitive has none of the keys read in
    this program, nor have [Object.prototype] and [Array.prototype]. *)
Definition getProp (v : JsValue) (key : jsstring) : JsValue :=
  match v with
  | JObject props => default JUndefined (props !! key)
  | JArray elements =>
    if bool_decide (key = js "length")
    then JNumber (binary_normalize 53 1024 (Z.of_nat (length elements)) 0 false)
    else match arrayIndex key with
         | Some i => default JUndefined (elements !! i)
         | None => JUndefined
         end
  | _ => JUndefined
  end.

(** ** validateContactForm *)

(** [typeof v === "string" && test(v)]. *)
Definition isStringAnd (test : jsstring -> bool) (v : JsValue) : bool :=
  bool_decide (typeof v = js "string")
  && match v with
     | JString s => test s
     | _ => false
     end.

Definition validateContactForm (data : JsValue) : bool :=
  if negb (bool_decide (typeof data = js "object"))
     || match data with JNull => true | _ => false end
  then false
  else
    let d := getProp data in
    isStringAnd (fun s => 0 <? length (trim s)) (d (js "name"))
    && isStringAnd (fun s => includes s (js "@")) (d (js "email"))
    && isStringAnd (fun s => 0 <? length (trim s)) (d (js "message"))
    && isStringAnd (fun _ => true) (d (js "securityAnswer")).

(** ** Asynchronous functions *)

(** What the two asynchronous functions exchange with the outside. *)
Record Response : Type := { response_id : nat }.
Record MailTransporter : Type := { transporter_id : nat }.

Record RequestInit : Type :=
  { method : jsstring;
    headers : list (jsstring * jsstring);
    body : list (jsstring * jsstring) }.

Record MailOptions : Type :=
  { from : jsstring;
    to : jsstring;
    replyTo : option jsstring;
    subject : jsstring;
    html : jsstring;
    text : jsstring }.

(** A call to the outside, indexed by what its promise is fulfilled with. *)
Inductive Call : Type -> Type :=
| Fetch (url : jsstring) (init : RequestInit) : Call Response
| ResponseJson (response : Response) : Call JsValue
| SendMail (transporter : MailTransporter) (mailOptions : MailOptions) : Call unit.

Inductive Settled (T : Type) : Type :=
| Fulfilled (value : T)
| Rejected (reason : JsValue).
Arguments Fulfilled {T} value.
Arguments Rejected {T} reason.

Inductive Level : Type := LevelLog | LevelWarn | LevelError.

(** An asynchronous function body: it returns, throws, issues a call
    (whose promise is then pending), suspends until the promise of a call
    is settled, or writes to the console. *)
Inductive Async (A : Type) : Type :=
| Return (a : A)
| Throw (e : JsValue)
| Invoke {T : Type} (c : Call T) (k : Async A)
| Suspend {T : Type} (c : Call T) (k : Settled T -> Async A)
| Console (level : Level) (args : list JsValue) (k : Async A).
Arguments Return {A} a.
Arguments Throw {A} e.
Arguments Invoke {A T} c k.
Arguments Suspend {A T} c k.
Arguments Console {A} level args k.

Fixpoint bind {A B : Type} (m : Async A) (f : A -> Async B) : Async B :=
  match m with
  | Return a => f a
  | Throw e => Throw e
  | Invoke c k => Invoke c (bind k f)
  | Suspend c k => Suspend c (fun r => bind (k r) f)
  | Console level args k => Console level args (bind k f)
  end.

(** [try { body } catch (error) { handler }]. *)
Fixpoint tryCatch {A : Type} (body : Async A) (handler : JsValue -> Async A)
    : Async A :=
  match body with
  | Return a => Return a
  | Throw e => handler e
  | Invoke c k => Invoke c (tryCatch k handler)
  | Suspend c k => Suspend c (fun r => tryCatch (k r) handler)
  | Console level args k => Console level args (tryCatch k handler)
  end.

(** [await f(...)]: the call is issued, the function suspends, and resumes
    with the value or throws the reason. *)
Definition await {T : Type} (c : Call T) : Async T :=
  Invoke c
    (Suspend c (fun r =>
       match r with
       | Fulfilled v => Return v
       | Rejected reason => Throw reason
       end)).

Definition console (level : Level) (args : list JsValue) : Async unit :=
  Console level args (Return tt).

Notation "x <- m ;; k" := (bind m (fun x => k))
  (at level 100, m at next level, right associativity).
Notation "m ;;; k" := (bind m (fun _ => k))
  (at level 100, right associativity).

(** The [TypeError] of a property read on [undefined] or [null]. *)
Definition TypeError : JsValue :=
  JObject (<[ js "name" := JString (js "TypeError") ]> ∅).

(** [v.key] where [v] may be [undefined] or [null]. *)
Definition member (v : JsValue) (key : jsstring) : Async JsValue :=
  match v with
  | JUndefined | JNull => Throw TypeError
  | _ => Return (getProp v key)
  end.

(** *** Runs

    What an observer sees of a run, in order: the calls issued, the
    settlements the function resumed with, and the console lines. *)
Inductive Observation : Type :=
| Called {T : Type} (c : Call T)
| Resumed {T : Type} (c : Call T) (r : Settled T)
| Logged (level : Level) (args : list JsValue).

(** The outside settles an awaited call as it likes, knowing what happened
    so far. *)
Definition Env : Type := forall T : Type, list Observation -> Call T -> Settled T.

Inductive Completion (A : Type) : Type :=
| Normal (a : A)
| Abrupt (e : JsValue).
Arguments Normal {A} a.
Arguments Abrupt {A} e.

Fixpoint run {A : Type} (env : Env) (m : Async A) (seen : list Observation)
    : Completion A * list Observation :=
  match m with
  | Return a => (Normal a, seen)
  | Throw e => (Abrupt e, seen)
  | Invoke c k => run env k (seen ++ [Called c])
  | Suspend c k =>
    let r := env _ seen c in
    run env (k r) (seen ++ [Resumed c r])
  | Console level args k => run env k (seen ++ [Logged level args])
  end.

Definition exec {A : Type} (env : Env) (m : Async A)
    : Completion A * list Observation :=
  run env m [].

(** ** verifyRecaptcha *)

Definition verifyRecaptcha (token : jsstring) (secretKey : option jsstring)
    : Async JsValue :=
  match secretKey with
  | None | Some [] =>
    console LevelWarn
      [JString (js "RECAPTCHA_SECRET_KEY not set, skipping verification")] ;;;
    Return (JBoolean true)
  | Some secretKey =>
    tryCatch
      (response <-
         await
           (Fetch (js "https://www.google.com/recaptcha/api/siteverify")
              {| method := js "POST";
                 headers :=
                   [(js "Content-Type", js "application/x-www-form-urlencoded")];
                 body := [(js "secret", secretKey); (js "response", token)] |}) ;;
       data <- await (ResponseJson response) ;;
       success <- member data (js "success") ;;
       (if negb (truthy success)
        then
          codes <- member data (js "error-codes") ;;
          console LevelError
            [JString (js "reCAPTCHA verification failed:"); codes]
        else Return tt) ;;;
       member data (js "success"))
      (fun error =>
         console LevelError
           [JString (js "reCAPTCHA verification error:"); error] ;;;
         Return (JBoolean false))
  end.

(** ** sendContactEmail *)

Record ContactFormData : Type :=
  { name : jsstring;
    company : option jsstring;
    email : jsstring;
    phone : option jsstring;
    message : jsstring;
    securityAnswer : jsstring;
    recaptchaToken : option jsstring }.

Module Result.
Record SendContactEmailResult : Type :=
  { success : bool;
    message : option jsstring;
    error : option jsstring }.
End Result.

(** [v ? yes(v) : no] on an optional string: [undefined] and the empty
    string are falsy. *)
Definition ifTruthy (v : option jsstring) (yes : jsstring -> jsstring)
    (no : jsstring) : jsstring :=
  match v with
  | Some ((_ :: _) as s) => yes s
  | _ => no
  end.

(** Admin notification email. *)
Definition mailOptions (formData : ContactFormData) (gmailUser : jsstring)
    : MailOptions :=
  {| from := List.concat
      [ DQ; js "すまいるサポート お問い合わせ"; DQ; js " <"; gmailUser; js ">" ];
     to := gmailUser;
     replyTo := Some (email formData);
     subject := List.concat
      [ js "【お問い合わせ】"; name formData; js "様より" ];
     html := List.concat
      [ LF
      ; js "        <h2>お問い合わせがありました</h2>"; LF
      ; js "        <table border="; DQ; js "1"; DQ; js " cellpadding="; DQ; js "10"; DQ; js " cellspacing="; DQ; js "0"; DQ; js " style="; DQ; js "border-collapse: collapse;"; DQ; js ">"; LF
      ; js "          <tr>"; LF
      ; js "            <th style="; DQ; js "background-color: #f5f5f5; text-align: left;"; DQ; js ">お名前</th>"; LF
      ; js "            <td>"; escapeHtml (name formData); js "</td>"; LF
      ; js "          </tr>"; LF
      ; js "          <tr>"; LF
      ; js "            <th style="; DQ; js "background-color: #f5f5f5; text-align: left;"; DQ; js ">会社名</th>"; LF
      ; js "            <td>"; ifTruthy (company formData) escapeHtml (js "（未入力）"); js "</td>"; LF
      ; js "          </tr>"; LF
      ; js "          <tr>"; LF
      ; js "            <th style="; DQ; js "background-color: #f5f5f5; text-align: left;"; DQ; js ">メールアドレス</th>"; LF
      ; js "            <td><a href="; DQ; js "mailto:"; escapeHtml (email formData); DQ; js ">"; escapeHtml (email formData); js "</a></td>"; LF
      ; js "          </tr>"; LF
      ; js "          <tr>"; LF
      ; js "            <th style="; DQ; js "background-color: #f5f5f5; text-align: left;"; DQ; js ">電話番号</th>"; LF
      ; js "            <td>"; ifTruthy (phone formData) escapeHtml (js "（未入力）"); js "</td>"; LF
      ; js "          </tr>"; LF
      ; js "          <tr>"; LF
      ; js "            <th style="; DQ; js "background-color: #f5f5f5; text-align: left;"; DQ; js ">お問い合わせ内容</th>"; LF
      ; js "            <td style="; DQ; js "white-space: pre-wrap;"; DQ; js ">"; escapeHtml (message formData); js "</td>"; LF
      ; js "          </tr>"; LF
      ; js "        </table>"; LF
      ; js "        <p style="; DQ; js "margin-top: 20px; color: #666; font-size: 12px;"; DQ; js ">"; LF
      ; js "          このメールはすまいるサポートのお問い合わせフォームから送信されました。"; LF
      ; js "        </p>"; LF
      ; js "      " ];
     text := trim (List.concat
      [ LF
      ; js "お問い合わせがありました"; LF
      ; LF
      ; js "お名前: "; name formData; LF
      ; js "会社名: "; orElse (company formData) (js "（未入力）"); LF
      ; js "メールアドレス: "; email formData; LF
      ; js "電話番号: "; orElse (phone formData) (js "（未入力）"); LF
      ; LF
      ; js "お問い合わせ内容:"; LF
      ; message formData; LF
      ; js "      " ]) |}.

(** Auto-reply email to customer. *)
Definition autoReplyOptions (formData : ContactFormData) (gmailUser : jsstring)
    : MailOptions :=
  {| from := List.concat
      [ DQ; js "すまいるサポート"; DQ; js " <"; gmailUser; js ">" ];
     to := email formData;
     replyTo := None;
     subject := js "【すまいるサポート】お問い合わせを受け付けました";
     html := List.concat
      [ LF
      ; js "        <div style="; DQ; js "font-family: sans-serif; max-width: 600px; margin: 0 auto;"; DQ; js ">"; LF
      ; js "          <h2 style="; DQ; js "color: #D2691E;"; DQ; js ">お問い合わせありがとうございます</h2>"; LF
      ; js "          <p>"; escapeHtml (name formData); js " 様</p>"; LF
      ; js "          <p>"; LF
      ; js "            この度は、すまいるサポートにお問い合わせいただき、誠にありがとうございます。<br>"; LF
      ; js "            以下の内容でお問い合わせを受け付けました。"; LF
      ; js "          </p>"; LF
      ; js "          <div style="; DQ; js "background-color: #FFF8F0; padding: 20px; border-radius: 8px; margin: 20px 0;"; DQ; js ">"; LF
      ; js "            <p style="; DQ; js "margin: 0 0 10px 0;"; DQ; js "><strong>お名前:</strong> "; escapeHtml (name formData); js "</p>"; LF
      ; js "            "; ifTruthy (company formData) (fun company =>
            List.concat [ js "<p style="; DQ; js "margin: 0 0 10px 0;"; DQ; js "><strong>会社名:</strong> "; escapeHtml company; js "</p>" ]) []; LF
      ; js "            <p style="; DQ; js "margin: 0 0 10px 0;"; DQ; js "><strong>メールアドレス:</strong> "; escapeHtml (email formData); js "</p>"; LF
      ; js "            "; ifTruthy (phone formData) (fun phone =>
            List.concat [ js "<p style="; DQ; js "margin: 0 0 10px 0;"; DQ; js "><strong>電話番号:</strong> "; escapeHtml phone; js "</p>" ]) []; LF
      ; js "            <p style="; DQ; js "margin: 0;"; DQ; js "><strong>お問い合わせ内容:</strong></p>"; LF
      ; js "            <p style="; DQ; js "margin: 5px 0 0 0; white-space: pre-wrap;"; DQ; js ">"; escapeHtml (message formData); js "</p>"; LF
      ; js "          </div>"; LF
      ; js "          <p>"; LF
      ; js "            担当者より<strong>2営業日以内</strong>にご連絡いたしますので、<br>"; LF
      ; js "            今しばらくお待ちくださいませ。"; LF
      ; js "          </p>"; LF
      ; js "          <hr style="; DQ; js "border: none; border-top: 1px solid #ddd; margin: 30px 0;"; DQ; js ">"; LF
      ; js "          <p style="; DQ; js "color: #666; font-size: 12px;"; DQ; js ">"; LF
      ; js "            すまいるサポート<br>"; LF
      ; js "            〒142-0042 東京都品川区豊町6-18-15 ミュージションテラス品川豊町<br>"; LF
      ; js "            <br>"; LF
      ; js "            ※このメールは自動送信されています。<br>"; LF
      ; js "            ※このメールに心当たりがない場合は、お手数ですが削除してください。"; LF
      ; js "          </p>"; LF
      ; js "        </div>"; LF
      ; js "      " ];
     text := trim (List.concat
      [ LF
      ; name formData; js " 様"; LF
      ; LF
      ; js "この度は、すまいるサポートにお問い合わせいただき、誠にありがとうございます。"; LF
      ; js "以下の内容でお問い合わせを受け付けました。"; LF
      ; LF
      ; js "━━━━━━━━━━━━━━━━━━━━━━━━━━━━━━"; LF
      ; js "お名前: "; name formData; LF
      ; ifTruthy (company formData) (fun company =>
            List.concat [ js "会社名: "; company; LF ]) []; js "メールアドレス: "; email formData; LF
      ; ifTruthy (phone formData) (fun phone =>
            List.concat [ js "電話番号: "; phone; LF ]) []; LF
      ; js "お問い合わせ内容:"; LF
      ; message formData; LF
      ; js "━━━━━━━━━━━━━━━━━━━━━━━━━━━━━━"; LF
      ; LF
      ; js "担当者より2営業日以内にご連絡いたしますので、"; LF
      ; js "今しばらくお待ちくださいませ。"; LF
      ; LF
      ; js "─────────────────────────────"; LF
      ; js "すまいるサポート"; LF
      ; js "〒142-0042 東京都品川区豊町6-18-15 ミュージションテラス品川豊町"; LF
      ; LF
      ; js "※このメールは自動送信されています。"; LF
      ; js "※このメールに心当たりがない場合は、お手数ですが削除してください。"; LF
      ; js "      " ]) |}.

Definition sendContactEmail (formData : ContactFormData)
    (transporter : MailTransporter) (gmailUser : jsstring)
    : Async Result.SendContactEmailResult :=
  tryCatch
    (await (SendMail transporter (mailOptions formData gmailUser)) ;;;
     await (SendMail transporter (autoReplyOptions formData gmailUser)) ;;;
     console LevelLog
       [JString
          (js "Contact form submitted successfully from: " ++ email formData)] ;;;
     Return
       {| Result.success := true;
          Result.message :=
            Some (js "お問い合わせを受け付けました。担当者より2営業日以内にご連絡いたします。");
          Result.error := None |})
    (fun error =>
       console LevelError
         [JString (js "Failed to send contact email:"); error] ;;;
       Return
         {| Result.success := false;
            Result.message := None;
            Result.error :=
              Some (js "メールの送信に失敗しました。しばらく経ってから再度お試しください。") |}).

(** ** The specification's reading of the string functions *)

(** The entity reference of a reserved character; any other code unit
    stands for itself. *)
Definition escapeUnit (c : N) : jsstring :=
  if (c =? 38)%N then js "&amp;"
  else if (c =? 60)%N then js "&lt;"
  else if (c =? 62)%N then js "&gt;"
  else if (c =? 34)%N then js "&quot;"
  else if (c =? 39)%N then js "&#039;"
  else [c].

(** Removing every code unit of a class. *)
Definition without (p : N -> bool) (s : jsstring) : jsstring :=
  List.filter (fun c => negb (p c)) s.

(** Normalization as the specification words it: trim, lower-case, remove
    all white space, remove all full stops. *)
Definition normalizeSpec (toLowerCase : jsstring -> jsstring) (s : jsstring)
    : jsstring :=
  without isFullStop (without isWhiteSpace (toLowerCase (trim s))).

(** ** The specification's reading of the form validator *)

Definition requiredKeys : list jsstring :=
  [js "name"; js "email"; js "message"; js "securityAnswer"].

(** A valid submission as the specification words it: a non-null object
    whose [name] and [message] are strings that are not blank, whose
    [email] is a string containing an at sign, and whose [securityAnswer]
    is a string. *)
Definition validForm (data : JsValue) : Prop :=
  typeof data = js "object" /\ data <> JNull
  /\ (exists s, getProp data (js "name") = JString s /\ 0 < length (trim s))
  /\ (exists s, getProp data (js "email") = JString s
                /\ exists before after, s = before ++ js "@" ++ after)
  /\ (exists s, getProp data (js "message") = JString s /\ 0 < length (trim s))
  /\ (exists s, getProp data (js "securityAnswer") = JString s).

(** ** Reading a run *)

(** The messages handed to the transporter, in the order of the calls. *)
Definition sentMail (o : Observation) : option MailOptions :=
  match o with
  | Called c =>
    match c with
    | SendMail _ mailOptions => Some mailOptions
    | _ => None
    end
  | _ => None
  end.

Definition mails (trace : list Observation) : list MailOptions :=
  omap sentMail trace.

(** The number of calls issued to the outside (network requests, response
    reads and mail sends). *)
Definition issued (trace : list Observation) : nat :=
  length (List.filter (fun o => match o with Called _ => true | _ => false end)
            trace).

(** The reasons of the rejections the function resumed with. *)
Definition rejection (o : Observation) : option JsValue :=
  match o with
  | Resumed _ (Rejected reason) => Some reason
  | _ => None
  end.

Definition rejections (trace : list Observation) : list JsValue :=
  omap rejection trace.

(** Whether each settlement was a fulfilment, in order. *)
Definition outcomes (trace : list Observation) : list bool :=
  omap (fun o =>
          match o with
          | Resumed _ (Fulfilled _) => Some true
          | Resumed _ (Rejected _) => Some false
          | _ => None
          end) trace.

(** What follows the first rejection. *)
Fixpoint afterRejection (trace : list Observation) : list Observation :=
  match trace with
  | [] => []
  | Resumed _ (Rejected _) :: rest => rest
  | _ :: rest => afterRejection rest
  end.

(** A run in which no two calls are ever pending together: each call is
    followed at once by the settlement the function waits for. *)
Inductive Sequential : list Observation -> Prop :=
| Sequential_nil : Sequential []
| Sequential_logged level args trace :
    Sequential trace -> Sequential (Logged level args :: trace)
| Sequential_called {T : Type} (c : Call T) (r : Settled T) trace :
    Sequential trace -> Sequential (Called c :: Resumed c r :: trace).

(** ** Reading an HTML body *)

(** The code units that delimit tags and attribute values. *)
Definition isMarkup (c : N) : bool :=
  ((c =? 60) || (c =? 62) || (c =? 34) || (c =? 39))%N.

Definition markup (s : jsstring) : jsstring := List.filter isMarkup s.

(** Every [<] is followed by a code unit other than [s]: no tag whose name
    starts with [s] opens in the text. *)
Fixpoint noTagInS (s : jsstring) : bool :=
  match s with
  | [] => true
  | c :: rest =>
    (if (c =? 60)%N
     then match rest with
          | d :: _ => negb (d =? 115)%N
          | [] => false
          end
     else true)
    && noTagInS rest
  end.

Definition isTruthy (v : option jsstring) : bool :=
  match v with
  | Some (_ :: _) => true
  | _ => false
  end.

(** ** Inputs and environments of the test suite *)

Definition validFormData : ContactFormData :=
  {| name := js "山田太郎";
     company := Some (js "テスト株式会社");
     email := js "customer@example.com";
     phone := Some (js "03-1234-5678");
     message := js "お問い合わせ内容です";
     securityAnswer := js "富士山";
     recaptchaToken := None |}.

Definition xssFormData : ContactFormData :=
  {| name := js "<script>alert('xss')</script>";
     company := None;
     email := js "test@example.com";
     phone := None;
     message := js "<img src=x onerror=alert(1)>";
     securityAnswer := js "富士山";
     recaptchaToken := None |}.

(** The request body of the validator's first test, and the same without
    its [email]. *)
Definition validBody : JsValue :=
  JObject
    (<[ js "name" := JString (js "山田太郎") ]>
    (<[ js "email" := JString (js "test@example.com") ]>
    (<[ js "message" := JString (js "お問い合わせ内容です") ]>
    (<[ js "securityAnswer" := JString (js "富士山") ]> ∅)))).

Definition bodyWithoutEmail : JsValue :=
  JObject
    (<[ js "name" := JString (js "山田太郎") ]>
    (<[ js "message" := JString (js "お問い合わせ内容です") ]>
    (<[ js "securityAnswer" := JString (js "富士山") ]> ∅))).

(** Every call is rejected. *)
Definition rejectAll (reason : JsValue) : Env := fun T _ _ => Rejected reason.

(** Every call is fulfilled; the verification endpoint reports success. *)
Definition fulfilAll : Env :=
  fun T _ c =>
    match c in Call T return Settled T with
    | Fetch _ _ => Fulfilled {| response_id := 0 |}
    | ResponseJson _ => Fulfilled (JObject (<[ js "success" := JBoolean true ]> ∅))
    | SendMail _ _ => Fulfilled tt
    end.

(** Every call is fulfilled; the verification endpoint reports failure. *)
Definition verificationFails : Env :=
  fun T seen c =>
    match c in Call T return Settled T with
    | ResponseJson _ =>
      Fulfilled
        (JObject
           (<[ js "success" := JBoolean false ]>
           (<[ js "error-codes" :=
                 JArray [JString (js "invalid-input-response")] ]> ∅)))
    | c => fulfilAll _ seen c
    end.

(** The first call is fulfilled and every later one rejected. *)
Definition rejectSecond : Env :=
  fun T seen c =>
    match seen with
    | [_] => fulfilAll T seen c
    | _ => Rejected (JString (js "SMTP error"))
    end.

(** * The rest of the code *)

(** ** Reading more of a run and of a body *)

(** The JSON value that the read of a response body was fulfilled with. *)
Definition parsedJson (o : Observation) : option JsValue :=
  match o with
  | Resumed c r =>
    match c in Call T return Settled T -> option JsValue with
    | ResponseJson _ =>
      fun r => match r with
               | Fulfilled data => Some data
               | Rejected _ => None
               end
    | _ => fun _ => None
    end r
  | _ => None
  end.

Definition parsedBody (trace : list Observation) : option JsValue :=
  head (omap parsedJson trace).

(** The console lines of a run. *)
Definition logged (o : Observation) : option (Level * list JsValue) :=
  match o with
  | Logged level args => Some (level, args)
  | _ => None
  end.

Definition logs (trace : list Observation) : list (Level * list JsValue) :=
  omap logged trace.

(** No [<sc...] opens in the text: a [<] is followed by a code unit other
    than [s], or by [s] and then one other than [c]. *)
Fixpoint noTagInSc (s : jsstring) : bool :=
  match s with
  | [] => true
  | c :: rest =>
    (if (c =? 60)%N
     then match rest with
          | d :: rest' =>
            if (d =? 115)%N
            then match rest' with
                 | e :: _ => negb (e =? 99)%N
                 | [] => false
                 end
            else true
          | [] => false
          end
     else true)
    && noTagInSc rest
  end.

(** The form with another message. *)
Definition withMessage (formData : ContactFormData) (text : jsstring)
    : ContactFormData :=
  {| name := name formData;
     company := company formData;
     email := email formData;
     phone := phone formData;
     message := text;
     securityAnswer := securityAnswer formData;
     recaptchaToken := recaptchaToken formData |}.

(** ** The request handlers

    The serverless function (api/contact.ts) and the route of the Express
    server (server/index.ts) run the same gates over the request body and
    then send the two mails. *)

(** [process.env]: a variable is a string or is not set. *)
Record ProcessEnv : Type :=
  { RECAPTCHA_SECRET_KEY : option jsstring;
    GMAIL_USER : option jsstring;
    GMAIL_APP_PASSWORD : option jsstring }.

Module Vercel.
Record VercelRequest : Type :=
  { method : option jsstring;
    body : JsValue }.
End Vercel.

(** [res.status(status).json(json)]: every path of a handler writes one
    response and returns, and the response is the handler's value here. *)
Record HttpResponse : Type :=
  { status : nat;
    json : JsValue }.

(** The object literals [{ error }], [{ success: false, error }] and
    [{ success: true, message }]. *)
Definition errorJson (error : jsstring) : JsValue :=
  JObject (<[ js "error" := JString error ]> ∅).

Definition failureJson (error : jsstring) : JsValue :=
  JObject
    (<[ js "success" := JBoolean false ]>
    (<[ js "error" := JString error ]> ∅)).

Definition successJson (message : JsValue) : JsValue :=
  JObject
    (<[ js "success" := JBoolean true ]>
    (<[ js "message" := message ]> ∅)).

(** An optional string as a value: [undefined] when it is absent. *)
Definition optionalValue (s : option jsstring) : JsValue :=
  match s with
  | Some s => JString s
  | None => JUndefined
  end.

(** [new Error(message)]. *)
Definition Error (message : jsstring) : JsValue :=
  JObject
    (<[ js "name" := JString (js "Error") ]>
    (<[ js "message" := JString message ]> ∅)).

(** A value passed where the callee calls a string method on it
    ([answer.trim()], [text.replace(...)]): anything but a string has no
    such method, and the call throws a [TypeError]. *)
Definition stringArgument (v : JsValue) : Async jsstring :=
  match v with
  | JString s => Return s
  | _ => Throw TypeError
  end.

(** The fields of a body as [sendContactEmail] and the route read them
    while they build the notification.  [escapeHtml] is called on [name],
    [email] and [message], and on [company] and [phone] when they are
    truthy, and throws on anything but a string; a falsy [company] or
    [phone] reads as an absent one everywhere.  [securityAnswer] and
    [recaptchaToken] are not read there. *)
Definition requiredText (v : JsValue) : option jsstring :=
  match v with
  | JString s => Some s
  | _ => None
  end.

Definition optionalText (v : JsValue) : option (option jsstring) :=
  match v with
  | JString s => Some (Some s)
  | _ => if truthy v then None else Some None
  end.

Definition formDataOf (body : JsValue) : option ContactFormData :=
  name ← requiredText (getProp body (js "name"));
  company ← optionalText (getProp body (js "company"));
  email ← requiredText (getProp body (js "email"));
  phone ← optionalText (getProp body (js "phone"));
  message ← requiredText (getProp body (js "message"));
  Some
    {| name := name;
       company := company;
       email := email;
       phone := phone;
       message := message;
       securityAnswer :=
         default [] (requiredText (getProp body (js "securityAnswer")));
       recaptchaToken := requiredText (getProp body (js "recaptchaToken")) |}.

(** [sendContactEmail(body, transporter, gmailUser)] on a body as the
    handler passes it, typed by the validator's guard only.  Destructuring
    [undefined] or [null] throws before the [try] block.  Inside it, the
    notification is built first: a field on which [escapeHtml] throws takes
    the function to its [catch] clause before anything is sent. *)
Definition sendContactEmailBody (body : JsValue)
    (transporter : MailTransporter) (gmailUser : jsstring)
    : Async Result.SendContactEmailResult :=
  match body with
  | JUndefined | JNull => Throw TypeError
  | _ =>
    match formDataOf body with
    | Some formData => sendContactEmail formData transporter gmailUser
    | None =>
      console LevelError
        [JString (js "Failed to send contact email:"); TypeError] ;;;
      Return
        {| Result.success := false;
           Result.message := None;
           Result.error :=
             Some (js "メールの送信に失敗しました。しばらく経ってから再度お試しください。") |}
    end
  end.

(** [!gmailUser || !gmailAppPassword] is false: both are set and not
    empty. *)
Definition credentials (processEnv : ProcessEnv)
    : option (jsstring * jsstring) :=
  match GMAIL_USER processEnv, GMAIL_APP_PASSWORD processEnv with
  | Some ((_ :: _) as gmailUser), Some ((_ :: _) as gmailAppPassword) =>
    Some (gmailUser, gmailAppPassword)
  | _, _ => None
  end.

(** The options of [nodemailer.createTransport]. *)
Record Auth : Type :=
  { user : jsstring;
    pass : jsstring }.

Record TransportOptions : Type :=
  { service : jsstring;
    auth : Auth }.

(** Notification and auto-reply as the route of the Express server builds
    them: the templates of [sendContactEmail], indented two columns more. *)
Definition serverMailOptions (formData : ContactFormData) (gmailUser : jsstring)
    : MailOptions :=
  {| from := List.concat
      [ DQ; js "すまいるサポート お問い合わせ"; DQ; js " <"; gmailUser; js ">" ];
     to := gmailUser;
     replyTo := Some (email formData);
     subject := List.concat
      [ js "【お問い合わせ】"; name formData; js "様より" ];
     html := List.concat
      [ LF
      ; js "          <h2>お問い合わせがありました</h2>"; LF
      ; js "          <table border="; DQ; js "1"; DQ; js " cellpadding="; DQ; js "10"; DQ; js " cellspacing="; DQ; js "0"; DQ; js " style="; DQ; js "border-collapse: collapse;"; DQ; js ">"; LF
      ; js "            <tr>"; LF
      ; js "              <th style="; DQ; js "background-color: #f5f5f5; text-align: left;"; DQ; js ">お名前</th>"; LF
      ; js "              <td>"; escapeHtml (name formData); js "</td>"; LF
      ; js "            </tr>"; LF
      ; js "            <tr>"; LF
      ; js "              <th style="; DQ; js "background-color: #f5f5f5; text-align: left;"; DQ; js ">会社名</th>"; LF
      ; js "              <td>"; ifTruthy (company formData) escapeHtml (js "（未入力）"); js "</td>"; LF
      ; js "            </tr>"; LF
      ; js "            <tr>"; LF
      ; js "              <th style="; DQ; js "background-color: #f5f5f5; text-align: left;"; DQ; js ">メールアドレス</th>"; LF
      ; js "              <td><a href="; DQ; js "mailto:"; escapeHtml (email formData); DQ; js ">"; escapeHtml (email formData); js "</a></td>"; LF
      ; js "            </tr>"; LF
      ; js "            <tr>"; LF
      ; js "              <th style="; DQ; js "background-color: #f5f5f5; text-align: left;"; DQ; js ">電話番号</th>"; LF
      ; js "              <td>"; ifTruthy (phone formData) escapeHtml (js "（未入力）"); js "</td>"; LF
      ; js "            </tr>"; LF
      ; js "            <tr>"; LF
      ; js "              <th style="; DQ; js "background-color: #f5f5f5; text-align: left;"; DQ; js ">お問い合わせ内容</th>"; LF
      ; js "              <td style="; DQ; js "white-space: pre-wrap;"; DQ; js ">"; escapeHtml (message formData); js "</td>"; LF
      ; js "            </tr>"; LF
      ; js "          </table>"; LF
      ; js "          <p style="; DQ; js "margin-top: 20px; color: #666; font-size: 12px;"; DQ; js ">"; LF
      ; js "            このメールはすまいるサポートのお問い合わせフォームから送信されました。"; LF
      ; js "          </p>"; LF
      ; js "        " ];
     text := trim (List.concat
      [ LF
      ; js "お問い合わせがありました"; LF
      ; LF
      ; js "お名前: "; name formData; LF
      ; js "会社名: "; orElse (company formData) (js "（未入力）"); LF
      ; js "メールアドレス: "; email formData; LF
      ; js "電話番号: "; orElse (phone formData) (js "（未入力）"); LF
      ; LF
      ; js "お問い合わせ内容:"; LF
      ; message formData; LF
      ; js "        " ]) |}.

Definition serverAutoReplyOptions (formData : ContactFormData)
    (gmailUser : jsstring) : MailOptions :=
  {| from := List.concat
      [ DQ; js "すまいるサポート"; DQ; js " <"; gmailUser; js ">" ];
     to := email formData;
     replyTo := None;
     subject := js "【すまいるサポート】お問い合わせを受け付けました";
     html := List.concat
      [ LF
      ; js "          <div style="; DQ; js "font-family: sans-serif; max-width: 600px; margin: 0 auto;"; DQ; js ">"; LF
      ; js "            <h2 style="; DQ; js "color: #D2691E;"; DQ; js ">お問い合わせありがとうございます</h2>"; LF
      ; js "            <p>"; escapeHtml (name formData); js " 様</p>"; LF
      ; js "            <p>"; LF
      ; js "              この度は、すまいるサポートにお問い合わせいただき、誠にありがとうございます。<br>"; LF
      ; js "              以下の内容でお問い合わせを受け付けました。"; LF
      ; js "            </p>"; LF
      ; js "            <div style="; DQ; js "background-color: #FFF8F0; padding: 20px; border-radius: 8px; margin: 20px 0;"; DQ; js ">"; LF
      ; js "              <p style="; DQ; js "margin: 0 0 10px 0;"; DQ; js "><strong>お名前:</strong> "; escapeHtml (name formData); js "</p>"; LF
      ; js "              "; ifTruthy (company formData) (fun company =>
            List.concat [ js "<p style="; DQ; js "margin: 0 0 10px 0;"; DQ; js "><strong>会社名:</strong> "; escapeHtml company; js "</p>" ]) []; LF
      ; js "              <p style="; DQ; js "margin: 0 0 10px 0;"; DQ; js "><strong>メールアドレス:</strong> "; escapeHtml (email formData); js "</p>"; LF
      ; js "              "; ifTruthy (phone formData) (fun phone =>
            List.concat [ js "<p style="; DQ; js "margin: 0 0 10px 0;"; DQ; js "><strong>電話番号:</strong> "; escapeHtml phone; js "</p>" ]) []; LF
      ; js "              <p style="; DQ; js "margin: 0;"; DQ; js "><strong>お問い合わせ内容:</strong></p>"; LF
      ; js "              <p style="; DQ; js "margin: 5px 0 0 0; white-space: pre-wrap;"; DQ; js ">"; escapeHtml (message formData); js "</p>"; LF
      ; js "            </div>"; LF
      ; js "            <p>"; LF
      ; js "              担当者より<strong>2営業日以内</strong>にご連絡いたしますので、<br>"; LF
      ; js "              今しばらくお待ちくださいませ。"; LF
      ; js "            </p>"; LF
      ; js "            <hr style="; DQ; js "border: none; border-top: 1px solid #ddd; margin: 30px 0;"; DQ; js ">"; LF
      ; js "            <p style="; DQ; js "color: #666; font-size: 12px;"; DQ; js ">"; LF
      ; js "              すまいるサポート<br>"; LF
      ; js "              〒142-0042 東京都品川区豊町6-18-15 ミュージションテラス品川豊町<br>"; LF
      ; js "              <br>"; LF
      ; js "              ※このメールは自動送信されています。<br>"; LF
      ; js "              ※このメールに心当たりがない場合は、お手数ですが削除してください。"; LF
      ; js "            </p>"; LF
      ; js "          </div>"; LF
      ; js "        " ];
     text := trim (List.concat
      [ LF
      ; name formData; js " 様"; LF
      ; LF
      ; js "この度は、すまいるサポートにお問い合わせいただき、誠にありがとうございます。"; LF
      ; js "以下の内容でお問い合わせを受け付けました。"; LF
      ; LF
      ; js "━━━━━━━━━━━━━━━━━━━━━━━━━━━━━━"; LF
      ; js "お名前: "; name formData; LF
      ; ifTruthy (company formData) (fun company =>
            List.concat [ js "会社名: "; company; LF ]) []; js "メールアドレス: "; email formData; LF
      ; ifTruthy (phone formData) (fun phone =>
            List.concat [ js "電話番号: "; phone; LF ]) []; LF
      ; js "お問い合わせ内容:"; LF
      ; message formData; LF
      ; js "━━━━━━━━━━━━━━━━━━━━━━━━━━━━━━"; LF
      ; LF
      ; js "担当者より2営業日以内にご連絡いたしますので、"; LF
      ; js "今しばらくお待ちくださいませ。"; LF
      ; LF
      ; js "─────────────────────────────"; LF
      ; js "すまいるサポート"; LF
      ; js "〒142-0042 東京都品川区豊町6-18-15 ミュージションテラス品川豊町"; LF
      ; LF
      ; js "※このメールは自動送信されています。"; LF
      ; js "※このメールに心当たりがない場合は、お手数ですが削除してください。"; LF
      ; js "        " ]) |}.

Section Handlers.

(** The host's [toLowerCase] (see [validateSecurityAnswer]); the string
    that [URLSearchParams] makes of a token that is not a string; and
    [nodemailer.createTransport]. *)
Variable toLowerCase : jsstring -> jsstring.
Variable ToString : JsValue -> jsstring.
Variable createTransport : TransportOptions -> MailTransporter.

Definition tokenText (recaptchaToken : JsValue) : jsstring :=
  match recaptchaToken with
  | JString s => s
  | _ => ToString recaptchaToken
  end.

(** Create Gmail transporter. *)
Definition createMailTransporter (gmailUser gmailAppPassword : jsstring)
    : MailTransporter :=
  createTransport
    {| service := js "gmail";
       auth := {| user := gmailUser; pass := gmailAppPassword |} |}.

(** The serverless function. *)
Definition handler (processEnv : ProcessEnv) (req : Vercel.VercelRequest)
    : Async HttpResponse :=
  if negb (bool_decide (Vercel.method req = Some (js "POST")))
  then Return {| status := 405; json := errorJson (js "Method not allowed") |}
  else
    let body := Vercel.body req in
    if negb (validateContactForm body)
    then
      Return
        {| status := 400;
           json := errorJson (js "入力内容に不備があります。必須項目をすべて入力してください。") |}
    else
      securityAnswer <- stringArgument (getProp body (js "securityAnswer")) ;;
      if negb (validateSecurityAnswer toLowerCase securityAnswer)
      then
        Return
          {| status := 400;
             json :=
               errorJson
                 (js "セキュリティ確認の回答が正しくありません。日本で一番高い山の名前を入力してください。") |}
      else
        let recaptchaToken := getProp body (js "recaptchaToken") in
        if negb (truthy recaptchaToken)
        then
          Return
            {| status := 400;
               json := errorJson (js "reCAPTCHA認証を完了してください。") |}
        else
          let recaptchaSecretKey := RECAPTCHA_SECRET_KEY processEnv in
          isRecaptchaValid <-
            verifyRecaptcha (tokenText recaptchaToken) recaptchaSecretKey ;;
          if negb (truthy isRecaptchaValid)
          then
            Return
              {| status := 400;
                 json :=
                   errorJson (js "reCAPTCHA認証に失敗しました。再度お試しください。") |}
          else
            match credentials processEnv with
            | None =>
              console LevelError
                [JString (js "GMAIL_USER or GMAIL_APP_PASSWORD not configured")] ;;;
              Return
                {| status := 500;
                   json :=
                     errorJson
                       (js "サーバーの設定に問題があります。管理者にお問い合わせください。") |}
            | Some (gmailUser, gmailAppPassword) =>
              let transporter :=
                createMailTransporter gmailUser gmailAppPassword in
              result <- sendContactEmailBody body transporter gmailUser ;;
              if Result.success result
              then
                Return
                  {| status := 200;
                     json :=
                       successJson (optionalValue (Result.message result)) |}
              else
                Return
                  {| status := 500;
                     json :=
                       JObject
                         (<[ js "error" :=
                               optionalValue (Result.error result) ]> ∅) |}
            end.

(** [createMailTransporter] of the Express server: it reads the
    credentials itself and throws when one is missing. *)
Definition serverCreateMailTransporter (processEnv : ProcessEnv)
    : Async MailTransporter :=
  match credentials processEnv with
  | None =>
    Throw
      (Error
         (js "GMAIL_USER and GMAIL_APP_PASSWORD environment variables are required"))
  | Some (gmailUser, gmailAppPassword) =>
    Return (createMailTransporter gmailUser gmailAppPassword)
  end.

(** The route [POST /api/contact] of the Express server, on the parsed
    request body.  Its [validateContactForm], [validateSecurityAnswer],
    [verifyRecaptcha] and [escapeHtml] are copies of those of contact.ts,
    except that [verifyRecaptcha] reads the secret key from the
    environment.  [GMAIL_USER] is read again after [createMailTransporter]
    returned, when it is set. *)
Definition contactRoute (processEnv : ProcessEnv) (body : JsValue)
    : Async HttpResponse :=
  tryCatch
    (if negb (validateContactForm body)
     then
       Return
         {| status := 400;
            json :=
              failureJson
                (js "必須項目（お名前、メールアドレス、お問い合わせ内容、セキュリティ回答）を入力してください") |}
     else
       securityAnswer <- stringArgument (getProp body (js "securityAnswer")) ;;
       if negb (validateSecurityAnswer toLowerCase securityAnswer)
       then
         Return
           {| status := 400;
              json :=
                failureJson
                  (js "セキュリティの質問に正しくお答えください。（ヒント：日本一高い山の名前を日本語で入力してください）") |}
       else
         let recaptchaToken := getProp body (js "recaptchaToken") in
         if negb (truthy recaptchaToken)
         then
           Return
             {| status := 400;
                json := failureJson (js "reCAPTCHAの認証を完了してください。") |}
         else
           recaptchaValid <-
             verifyRecaptcha (tokenText recaptchaToken)
               (RECAPTCHA_SECRET_KEY processEnv) ;;
           if negb (truthy recaptchaValid)
           then
             Return
               {| status := 400;
                  json :=
                    failureJson
                      (js "reCAPTCHAの認証に失敗しました。もう一度お試しください。") |}
           else
             transporter <- serverCreateMailTransporter processEnv ;;
             let gmailUser := default [] (GMAIL_USER processEnv) in
             match formDataOf body with
             | None => Throw TypeError
             | Some formData =>
               await
                 (SendMail transporter (serverMailOptions formData gmailUser)) ;;;
               await
                 (SendMail transporter
                    (serverAutoReplyOptions formData gmailUser)) ;;;
               console LevelLog
                 [JString
                    (js "Contact form submitted successfully from: "
                     ++ email formData)] ;;;
               Return
                 {| status := 200;
                    json :=
                      successJson
                        (JString
                           (js "お問い合わせを受け付けました。担当者より2営業日以内にご連絡いたします。")) |}
             end)
    (fun error =>
       console LevelError
         [JString (js "Failed to send contact email:"); error] ;;;
       Return
         {| status := 500;
            json :=
              failureJson
                (js "メールの送信に失敗しました。しばらく経ってから再度お試しください。") |}).

End Handlers.

(** The three gates that a request body passes before anything is asked of
    the outside: it is a valid form, its security answer is right, and
    its [recaptchaToken] is truthy. *)
Definition passesGates (toLowerCase : jsstring -> jsstring) (body : JsValue)
    : bool :=
  validateContactForm body
  && match getProp body (js "securityAnswer") with
     | JString answer => validateSecurityAnswer toLowerCase answer
     | _ => false
     end
  && truthy (getProp body (js "recaptchaToken")).

(** The requests to the verification endpoint in a run. *)
Definition fetched (o : Observation) : option (jsstring * RequestInit) :=
  match o with
  | Called c =>
    match c with
    | Fetch url init => Some (url, init)
    | _ => None
    end
  | _ => None
  end.

Definition fetches (trace : list Observation) : list (jsstring * RequestInit) :=
  omap fetched trace.

(** Inputs of the handlers: a body with a token, one whose [company] is
    the number 42, the environment of a configured deployment and one of a
    deployment without secrets, and stand-ins for the host functions. *)
Definition tokenBody : JsValue :=
  JObject
    (<[ js "name" := JString (js "山田太郎") ]>
    (<[ js "email" := JString (js "test@example.com") ]>
    (<[ js "message" := JString (js "お問い合わせ内容です") ]>
    (<[ js "securityAnswer" := JString (js "富士山") ]>
    (<[ js "recaptchaToken" := JString (js "valid-token") ]> ∅))))).


Definition configured : ProcessEnv :=
  {| RECAPTCHA_SECRET_KEY := Some (js "secret-key");
     GMAIL_USER := Some (js "admin@example.com");
     GMAIL_APP_PASSWORD := Some (js "app-password") |}.


Definition postRequest (body : JsValue) : Vercel.VercelRequest :=
  {| Vercel.method := Some (js "POST"); Vercel.body := body |}.

Definition getRequest (body : JsValue) : Vercel.VercelRequest :=
  {| Vercel.method := Some (js "GET"); Vercel.body := body |}.

Definition noToString (v : JsValue) : jsstring := [].
Definition oneTransport (options : TransportOptions) : MailTransporter :=
  {| transporter_id := 0 |}.

(** The fixed texts of the serverless function's error responses. *)
Definition handlerErrors : list jsstring :=
  [ js "Method not allowed"
  ; js "入力内容に不備があります。必須項目をすべて入力してください。"
  ; js "セキュリティ確認の回答が正しくありません。日本で一番高い山の名前を入力してください。"
  ; js "reCAPTCHA認証を完了してください。"
  ; js "reCAPTCHA認証に失敗しました。再度お試しください。"
  ; js "サーバーの設定に問題があります。管理者にお問い合わせください。"
  ; js "メールの送信に失敗しました。しばらく経ってから再度お試しください。" ].


(** The fixed texts of the route's error responses. *)
Definition routeErrors : list jsstring :=
  [ js "必須項目（お名前、メールアドレス、お問い合わせ内容、セキュリティ回答）を入力してください"
  ; js "セキュリティの質問に正しくお答えください。（ヒント：日本一高い山の名前を日本語で入力してください）"
  ; js "reCAPTCHAの認証を完了してください。"
  ; js "reCAPTCHAの認証に失敗しました。もう一度お試しください。"
  ; js "メールの送信に失敗しました。しばらく経ってから再度お試しください。" ].

(** A text without its space characters. *)
Definition withoutSpaces (s : jsstring) : jsstring :=
  List.filter (fun c => negb (c =? 32)%N) s.

(** * Properties *)

(** ** Global replacement *)

Lemma replaceLoop_Class (p : N -> bool) (f : jsstring -> jsstring) :
  forall (steps : nat) (s : jsstring),
    length s <= steps ->
    replaceLoop (Class p) f steps s
    = List.flat_map (fun c => if p c then f [c] else [c]) s.
Proof.
  induction steps as [|steps IH]; intros [|c rest] Hlen; simpl in *;
    try reflexivity; try lia.
  destruct (p c); simpl.
  - rewrite drop_0. f_equal. apply IH. lia.
  - f_equal. apply IH. lia.
Qed.

Lemma replace_Class (p : N -> bool) (f : jsstring -> jsstring) (s : jsstring) :
  replace (Class p) f s
  = List.flat_map (fun c => if p c then f [c] else [c]) s.
Proof. apply replaceLoop_Class. reflexivity. Qed.

Lemma without_drop_span (p : N -> bool) (s : jsstring) :
  without p (drop (spanLength p s) s) = without p s.
Proof.
  induction s as [|c rest IH]; simpl; [reflexivity|].
  destruct (p c) eqn:Hp; simpl; [exact IH|].
  rewrite Hp. reflexivity.
Qed.

Lemma replaceLoop_ClassPlus (p : N -> bool) :
  forall (steps : nat) (s : jsstring),
    length s <= steps ->
    replaceLoop (ClassPlus p) (fun _ => []) steps s = without p s.
Proof.
  induction steps as [|steps IH]; intros [|c rest] Hlen; simpl in *;
    try reflexivity; try lia.
  destruct (p c) eqn:Hp; simpl.
  - rewrite IH by (rewrite length_drop; lia).
    apply without_drop_span.
  - f_equal. apply IH. lia.
Qed.

Lemma replaceWith_ClassPlus_nil (p : N -> bool) (s : jsstring) :
  replaceWith (ClassPlus p) [] s = without p s.
Proof. apply replaceLoop_ClassPlus. reflexivity. Qed.

Lemma replaceWith_Class_nil (p : N -> bool) (s : jsstring) :
  replaceWith (Class p) [] s = without p s.
Proof.
  unfold replaceWith. rewrite replace_Class.
  induction s as [|c rest IH]; simpl; [reflexivity|].
  rewrite IH. destruct (p c); reflexivity.
Qed.

(** ** escapeHtml *)

Lemma isReserved_cases (c : N) :
  isReserved c = true ->
  c = 38%N \/ c = 60%N \/ c = 62%N \/ c = 34%N \/ c = 39%N.
Proof.
  unfold isReserved. rewrite !orb_true_iff, !N.eqb_eq. tauto.
Qed.

Lemma escapeUnit_replacer (c : N) :
  (if isReserved c then orElse (escapeMap !! [c]) [c] else [c]) = escapeUnit c.
Proof.
  destruct (isReserved c) eqn:Hc.
  - apply isReserved_cases in Hc.
    destruct Hc as [->|[->|[->|[->| ->]]]]; vm_compute; reflexivity.
  - unfold isReserved in Hc. rewrite !orb_false_iff in Hc.
    destruct Hc as [[[[H1 H2] H3] H4] H5].
    unfold escapeUnit. rewrite H1, H2, H3, H4, H5. reflexivity.
Qed.

Lemma escapeHtml_flat_map (s : jsstring) :
  escapeHtml s = List.flat_map escapeUnit s.
Proof.
  unfold escapeHtml. rewrite replace_Class.
  induction s as [|c rest IH]; simpl; [reflexivity|].
  rewrite IH, escapeUnit_replacer. reflexivity.
Qed.

Lemma escapeHtml_app (s t : jsstring) :
  escapeHtml (s ++ t) = escapeHtml s ++ escapeHtml t.
Proof. rewrite !escapeHtml_flat_map. apply flat_map_app. Qed.

Lemma escapeUnit_plain (c : N) : isReserved c = false -> escapeUnit c = [c].
Proof.
  intros Hc. rewrite <- escapeUnit_replacer, Hc. reflexivity.
Qed.

(** C4: [escapeHtml] replaces each of the five reserved characters by its
    entity reference and keeps every other code unit, in order and in one
    pass over the input (the output is the concatenation of the images of
    the input's code units, so no replacement is scanned again); the
    empty string maps to itself, and a text without reserved characters is
    returned unchanged. *)
Theorem escapeHtml_spec :
  (forall s : jsstring, escapeHtml s = List.flat_map escapeUnit s)
  /\ escapeUnit 38 = js "&amp;"
  /\ escapeUnit 60 = js "&lt;"
  /\ escapeUnit 62 = js "&gt;"
  /\ escapeUnit 34 = js "&quot;"
  /\ escapeUnit 39 = js "&#039;"
  /\ (forall c : N, isReserved c = false -> escapeUnit c = [c])
  /\ (forall c : N,
        isReserved c = true <->
        c = 38%N \/ c = 60%N \/ c = 62%N \/ c = 34%N \/ c = 39%N)
  /\ escapeHtml [] = []
  /\ (forall s : jsstring,
        forallb (fun c => negb (isReserved c)) s = true -> escapeHtml s = s).
Proof.
  split; [exact escapeHtml_flat_map|].
  do 5 (split; [reflexivity|]).
  split; [exact escapeUnit_plain|].
  split.
  { intros c. split; [apply isReserved_cases|].
    intros [->|[->|[->|[->| ->]]]]; reflexivity. }
  split; [reflexivity|].
  intros s Hs. rewrite escapeHtml_flat_map.
  induction s as [|c rest IH]; simpl in *; [reflexivity|].
  apply andb_true_iff in Hs as [Hc Hrest].
  apply negb_true_iff in Hc.
  rewrite escapeUnit_plain, IH by assumption. reflexivity.
Qed.

(** ** validateSecurityAnswer *)

Lemma variants_trimmed :
  Forall (fun v => trim v = v) SECURITY_ANSWER_VARIANTS.
Proof. repeat constructor. Qed.


Section SecurityAnswerProperties.

Variable toLowerCase : jsstring -> jsstring.

Lemma validateSecurityAnswer_normalizeSpec (answer : jsstring) :
  validateSecurityAnswer toLowerCase answer = true <->
  Exists
    (fun variant =>
       normalizeSpec toLowerCase answer = normalizeSpec toLowerCase variant)
    SECURITY_ANSWER_VARIANTS.
Proof.
  unfold validateSecurityAnswer.
  rewrite existsb_exists, List.Exists_exists.
  split; intros (v & Hin & Hv); exists v; (split; [exact Hin|]).
  - apply bool_decide_eq_true in Hv.
    rewrite !replaceWith_Class_nil, !replaceWith_ClassPlus_nil in Hv.
    unfold normalizeSpec. rewrite Hv.
    pose proof variants_trimmed as Ht.
    rewrite List.Forall_forall in Ht. rewrite (Ht v Hin). reflexivity.
  - apply bool_decide_eq_true.
    rewrite !replaceWith_Class_nil, !replaceWith_ClassPlus_nil.
    unfold normalizeSpec in Hv. rewrite Hv.
    pose proof variants_trimmed as Ht.
    rewrite List.Forall_forall in Ht. rewrite (Ht v Hin). reflexivity.
Qed.


End SecurityAnswerProperties.



(** ** Substrings *)

Lemma startsWith_spec (s prefix : jsstring) :
  startsWith s prefix = true <-> exists rest, s = prefix ++ rest.
Proof.
  revert s. induction prefix as [|p prefix IH]; intros [|c s]; simpl.
  - split; [exists []; reflexivity | reflexivity].
  - split; [exists (c :: s); reflexivity | reflexivity].
  - split; [discriminate | intros [rest Hrest]; discriminate].
  - rewrite andb_true_iff, N.eqb_eq, IH. split.
    + intros [-> [rest ->]]. exists rest. reflexivity.
    + intros [rest Hrest]. injection Hrest as -> ->.
      split; [reflexivity | exists rest; reflexivity].
Qed.

Lemma includes_spec (s needle : jsstring) :
  includes s needle = true <->
  exists before after, s = before ++ needle ++ after.
Proof.
  induction s as [|c s IH].
  - change (includes [] needle) with (startsWith [] needle || false).
    rewrite orb_false_r, startsWith_spec. split.
    + intros [rest Hrest]. exists [], rest. exact Hrest.
    + intros (before & after & H).
      destruct before; [exists after; exact H | discriminate].
  - change (includes (c :: s) needle)
      with (startsWith (c :: s) needle || includes s needle).
    rewrite orb_true_iff, startsWith_spec, IH. split.
    + intros [[rest Hrest] | (before & after & ->)].
      * exists [], rest. exact Hrest.
      * exists (c :: before), after. reflexivity.
    + intros (before & after & H). destruct before as [|b before].
      * left. exists after. exact H.
      * right. injection H as -> ->. exists before, after. reflexivity.
Qed.

Lemma includes_app (a s b needle : jsstring) :
  includes s needle = true -> includes (a ++ s ++ b) needle = true.
Proof.
  rewrite !includes_spec. intros (before & after & ->).
  exists (a ++ before), (after ++ b). rewrite <- !app_assoc. reflexivity.
Qed.

(** ** validateContactForm *)

Lemma isStringAnd_spec (test : jsstring -> bool) (v : JsValue) :
  isStringAnd test v = true <-> exists s, v = JString s /\ test s = true.
Proof.
  unfold isStringAnd. destruct v;
    try (rewrite andb_false_r;
         split; [discriminate | intros (s & Hs & _); discriminate]).
  change (bool_decide (typeof (JString s) = js "string")) with true.
  rewrite andb_true_l. split.
  - intros Ht. exists s. split; [reflexivity | exact Ht].
  - intros (s' & Hs & Ht). injection Hs as ->. exact Ht.
Qed.

Lemma validateContactForm_object (data : JsValue) :
  typeof data = js "object" -> data <> JNull ->
  validateContactForm data
  = isStringAnd (fun s => 0 <? length (trim s)) (getProp data (js "name"))
    && isStringAnd (fun s => includes s (js "@")) (getProp data (js "email"))
    && isStringAnd (fun s => 0 <? length (trim s)) (getProp data (js "message"))
    && isStringAnd (fun _ => true) (getProp data (js "securityAnswer")).
Proof.
  intros Htype Hnull. unfold validateContactForm.
  rewrite Htype. destruct data; reflexivity.
Qed.

Lemma validateContactForm_not_object (data : JsValue) :
  typeof data <> js "object" \/ data = JNull ->
  validateContactForm data = false.
Proof.
  intros [Htype | ->]; [|reflexivity].
  unfold validateContactForm.
  rewrite (bool_decide_eq_false_2 _ Htype). reflexivity.
Qed.

Lemma JsValue_null_or_not (data : JsValue) : data = JNull \/ data <> JNull.
Proof. destruct data; (left; reflexivity) || (right; discriminate). Qed.

Lemma validateContactForm_validForm (data : JsValue) :
  validateContactForm data = true <-> validForm data.
Proof.
  unfold validForm.
  destruct (decide (typeof data = js "object")) as [Htype | Htype];
    [destruct (JsValue_null_or_not data) as [Hnull | Hnull] |].
  - rewrite validateContactForm_not_object by (right; exact Hnull).
    split; [discriminate | intros (_ & H & _); contradiction].
  - rewrite validateContactForm_object by assumption.
    rewrite !andb_true_iff, !isStringAnd_spec.
    setoid_rewrite Nat.ltb_lt. setoid_rewrite includes_spec.
    split.
    + intros [[[Hn He] Hm] (s & Hs & _)].
      repeat split; try assumption. exists s. exact Hs.
    + intros (_ & _ & Hn & He & Hm & (s & Hs)).
      repeat split; try assumption. exists s. split; [exact Hs | reflexivity].
  - rewrite validateContactForm_not_object by (left; exact Htype).
    split; [discriminate | intros (H & _); contradiction].
Qed.


Lemma validateContactForm_props (props : gmap jsstring JsValue) :
  validateContactForm (JObject props)
  = isStringAnd (fun s => 0 <? length (trim s))
      (default JUndefined (props !! js "name"))
    && isStringAnd (fun s => includes s (js "@"))
         (default JUndefined (props !! js "email"))
    && isStringAnd (fun s => 0 <? length (trim s))
         (default JUndefined (props !! js "message"))
    && isStringAnd (fun _ => true)
         (default JUndefined (props !! js "securityAnswer")).
Proof. apply validateContactForm_object; [reflexivity | discriminate]. Qed.

Lemma validateContactForm_same_required (props props' : gmap jsstring JsValue) :
  Forall (fun key => props' !! key = props !! key) requiredKeys ->
  validateContactForm (JObject props') = validateContactForm (JObject props).
Proof.
  intros Hsame. rewrite !validateContactForm_props.
  apply Forall_cons_1 in Hsame as [-> Hsame].
  apply Forall_cons_1 in Hsame as [-> Hsame].
  apply Forall_cons_1 in Hsame as [-> Hsame].
  apply Forall_cons_1 in Hsame as [-> _].
  reflexivity.
Qed.

(** C3: the form validator accepts exactly the non-null objects whose
    [name] and [message] are strings that are not blank, whose [email] is
    a string containing an at sign and whose [securityAnswer] is a string.
    It refuses [null], [undefined], the empty object and any object that
    lacks one of the four, and setting or removing any other property
    ([company], [phone], [recaptchaToken] among them) changes nothing. *)
Theorem validateContactForm_spec :
  (forall data : JsValue, validateContactForm data = true <-> validForm data)
  /\ validateContactForm JNull = false
  /\ validateContactForm JUndefined = false
  /\ validateContactForm (JObject ∅) = false
  /\ (forall (props : gmap jsstring JsValue) (key : jsstring),
        In key requiredKeys -> props !! key = None ->
        validateContactForm (JObject props) = false)
  /\ (forall (props : gmap jsstring JsValue) (key : jsstring) (value : JsValue),
        ~ In key requiredKeys ->
        validateContactForm (JObject (<[key := value]> props))
        = validateContactForm (JObject props))
  /\ (forall (props : gmap jsstring JsValue) (key : jsstring),
        ~ In key requiredKeys ->
        validateContactForm (JObject (delete key props))
        = validateContactForm (JObject props))
  /\ Forall (fun key => ~ In key requiredKeys)
       [js "company"; js "phone"; js "recaptchaToken"].
Proof.
  split; [exact validateContactForm_validForm|].
  do 3 (split; [reflexivity|]).
  split.
  { intros props key Hkey Hnone. rewrite validateContactForm_props.
    unfold requiredKeys in Hkey.
    destruct Hkey as [<-|[<-|[<-|[<-|[]]]]]; rewrite Hnone; cbn [default];
      change (isStringAnd _ JUndefined) with false;
      rewrite ?andb_false_r; reflexivity. }
  split.
  { intros props key value Hkey. apply validateContactForm_same_required.
    apply List.Forall_forall. intros k Hk.
    apply lookup_insert_ne. intros ->. exact (Hkey Hk). }
  split.
  { intros props key Hkey. apply validateContactForm_same_required.
    apply List.Forall_forall. intros k Hk.
    apply lookup_delete_ne. intros ->. exact (Hkey Hk). }
  repeat (constructor; [vm_compute; intuition discriminate|]). constructor.
Qed.

(** ** Runs of asynchronous functions *)

Lemma run_bind {A B : Type} (env : Env) (m : Async A) (f : A -> Async B) :
  forall seen : list Observation,
    run env (bind m f) seen
    = match run env m seen with
      | (Normal a, seen') => run env (f a) seen'
      | (Abrupt e, seen') => (Abrupt e, seen')
      end.
Proof.
  induction m as [a | e | T c k IH | T c k IH | level args k IH];
    intros seen; simpl; auto.
Qed.

Lemma run_tryCatch {A : Type} (env : Env) (body : Async A)
    (handler : JsValue -> Async A) :
  forall seen : list Observation,
    run env (tryCatch body handler) seen
    = match run env body seen with
      | (Normal a, seen') => (Normal a, seen')
      | (Abrupt e, seen') => run env (handler e) seen'
      end.
Proof.
  induction body as [a | e | T c k IH | T c k IH | level args k IH];
    intros seen; simpl; auto.
Qed.

Lemma run_await {T : Type} (env : Env) (c : Call T) (seen : list Observation) :
  run env (await c) seen
  = match env T (seen ++ [Called c]) c with
    | Fulfilled v =>
      (Normal v, seen ++ [Called c; Resumed c (Fulfilled v)])
    | Rejected reason =>
      (Abrupt reason, seen ++ [Called c; Resumed c (Rejected reason)])
    end.
Proof.
  simpl. destruct (env T (seen ++ [Called c]) c); simpl;
    rewrite <- app_assoc; reflexivity.
Qed.

Lemma run_console (env : Env) (level : Level) (args : list JsValue)
    (seen : list Observation) :
  run env (console level args) seen = (Normal tt, seen ++ [Logged level args]).
Proof. reflexivity. Qed.

(** A run only ever extends what was seen before it. *)
Lemma run_extends {A : Type} (env : Env) (m : Async A) :
  forall seen : list Observation,
    exists more, snd (run env m seen) = seen ++ more.
Proof.
  induction m as [a | e | T c k IH | T c k IH | level args k IH];
    intros seen; simpl.
  - exists []. rewrite app_nil_r. reflexivity.
  - exists []. rewrite app_nil_r. reflexivity.
  - destruct (IH (seen ++ [Called c])) as [more ->].
    exists (Called c :: more). rewrite <- app_assoc. reflexivity.
  - destruct (IH (env T seen c) (seen ++ [Resumed c (env T seen c)]))
      as [more ->].
    eexists. rewrite <- app_assoc. reflexivity.
  - destruct (IH (seen ++ [Logged level args])) as [more ->].
    eexists. rewrite <- app_assoc. reflexivity.
Qed.

(** ** verifyRecaptcha *)

Lemma verifyRecaptcha_unset (token : jsstring) (secretKey : option jsstring)
    (env : Env) :
  isTruthy secretKey = false ->
  exec env (verifyRecaptcha token secretKey)
  = (Normal (JBoolean true),
     [Logged LevelWarn
        [JString (js "RECAPTCHA_SECRET_KEY not set, skipping verification")]]).
Proof.
  destruct secretKey as [[|c k]|]; [reflexivity | discriminate | reflexivity].
Qed.

(** C5: without a secret key, [verifyRecaptcha] returns [true] for every
    token, whatever the outside would answer, and issues no call: its only
    effect is the console warning. *)
Theorem verifyRecaptcha_without_secret (token : jsstring) (env : Env) :
  fst (exec env (verifyRecaptcha token None)) = Normal (JBoolean true)
  /\ issued (snd (exec env (verifyRecaptcha token None))) = 0
  /\ snd (exec env (verifyRecaptcha token None))
     = [Logged LevelWarn
          [JString (js "RECAPTCHA_SECRET_KEY not set, skipping verification")]].
Proof.
  rewrite verifyRecaptcha_unset by reflexivity. repeat split.
Qed.

(** C9: the empty string as secret key is the not-configured case: the
    same program, hence the same result [true] and no call, for every
    token and every environment. *)
Theorem verifyRecaptcha_empty_secret (token : jsstring) (env : Env) :
  verifyRecaptcha token (Some []) = verifyRecaptcha token None
  /\ exec env (verifyRecaptcha token (Some []))
     = exec env (verifyRecaptcha token None)
  /\ fst (exec env (verifyRecaptcha token (Some []))) = Normal (JBoolean true)
  /\ issued (snd (exec env (verifyRecaptcha token (Some [])))) = 0.
Proof.
  rewrite !verifyRecaptcha_unset by reflexivity. repeat split.
Qed.

Lemma rejections_app (a b : list Observation) :
  rejections (a ++ b) = rejections a ++ rejections b.
Proof. apply omap_app. Qed.

(** The four ways a configured verification ends. *)
Lemma verifyRecaptcha_exec (token : jsstring) (c : N) (key : jsstring)
    (env : Env) :
  let result := exec env (verifyRecaptcha token (Some (c :: key))) in
  (fst result = Normal (JBoolean false) /\ rejections (snd result) <> [])
  \/ (exists data,
        outcomes (snd result) = [true; true]
        /\ rejections (snd result) = []
        /\ ((data = JUndefined \/ data = JNull)
            /\ fst result = Normal (JBoolean false)
            \/ data <> JUndefined /\ data <> JNull
               /\ fst result = Normal (getProp data (js "success")))).
Proof.
  unfold exec, verifyRecaptcha.
  rewrite run_tryCatch, run_bind, run_await.
  destruct (env Response _ _) as [response | reason].
  2:{ left. cbn. split; [reflexivity | discriminate]. }
  rewrite run_bind, run_await.
  destruct (env JsValue _ _) as [data | reason].
  2:{ left. cbn. split; [reflexivity | discriminate]. }
  right. exists data.
  destruct data; cbn [member bind tryCatch];
    try match goal with
        | |- context [truthy ?v] => destruct (truthy v)
        end;
    cbn - [js getProp];
    (split; [reflexivity|]); (split; [reflexivity|]);
    solve [ left; split; [tauto | reflexivity]
          | right; repeat split; discriminate ].
Qed.

(** C6: with a secret key that is not empty, a rejected request or a
    rejected read of the response body makes [verifyRecaptcha] return
    [false]. *)
Theorem verifyRecaptcha_fails_closed (token secretKey : jsstring) (env : Env) :
  secretKey <> [] ->
  rejections (snd (exec env (verifyRecaptcha token (Some secretKey)))) <> [] ->
  fst (exec env (verifyRecaptcha token (Some secretKey)))
  = Normal (JBoolean false).
Proof.
  intros Hkey Hrejected.
  destruct secretKey as [|c key]; [contradiction|].
  destruct (verifyRecaptcha_exec token c key env)
    as [[Hfalse _] | (data & _ & Hnone & _)].
  - exact Hfalse.
  - contradiction.
Qed.

Lemma verifyRecaptcha_fails_closed_witness :
  fst (exec (rejectAll (JString (js "Network error")))
         (verifyRecaptcha (js "test-token") (Some (js "secret-key"))))
  = Normal (JBoolean false).
Proof.
  apply (verifyRecaptcha_fails_closed (js "test-token") (js "secret-key")
           (rejectAll (JString (js "Network error")))).
  - vm_compute. discriminate.
  - vm_compute. discriminate.
Defined.

(** ** sendContactEmail *)

(** The three runs of [sendContactEmail]: the first send is rejected, the
    second is, or neither. *)
Lemma sendContactEmail_exec (formData : ContactFormData)
    (transporter : MailTransporter) (gmailUser : jsstring) (env : Env) :
  let first := SendMail transporter (mailOptions formData gmailUser) in
  let second := SendMail transporter (autoReplyOptions formData gmailUser) in
  let failed :=
    {| Result.success := false;
       Result.message := None;
       Result.error :=
         Some (js "メールの送信に失敗しました。しばらく経ってから再度お試しください。") |} in
  let result := exec env (sendContactEmail formData transporter gmailUser) in
  (exists reason,
      result
      = (Normal failed,
         [Called first; Resumed first (Rejected reason);
          Logged LevelError
            [JString (js "Failed to send contact email:"); reason]]))
  \/ (exists reason,
        result
        = (Normal failed,
           [Called first; Resumed first (Fulfilled tt);
            Called second; Resumed second (Rejected reason);
            Logged LevelError
              [JString (js "Failed to send contact email:"); reason]]))
  \/ result
     = (Normal
          {| Result.success := true;
             Result.message :=
               Some (js "お問い合わせを受け付けました。担当者より2営業日以内にご連絡いたします。");
             Result.error := None |},
        [Called first; Resumed first (Fulfilled tt);
         Called second; Resumed second (Fulfilled tt);
         Logged LevelLog
           [JString
              (js "Contact form submitted successfully from: "
               ++ email formData)]]).
Proof.
  intros first second failed result. subst result.
  unfold exec, sendContactEmail. fold first second.
  rewrite run_tryCatch, run_bind, run_await.
  destruct (env unit _ first) as [[] | reason].
  2:{ left. exists reason. reflexivity. }
  rewrite run_bind, run_await.
  destruct (env unit _ second) as [[] | reason].
  2:{ right. left. exists reason. reflexivity. }
  right. right. reflexivity.
Qed.

(** C7: when a send is rejected, [sendContactEmail] returns the failure
    result, whose error text is fixed and the same whatever the reason of
    the rejection; it issues no call after the rejection, so nothing is
    sent again: the messages handed over are the notification alone, or
    the notification and the auto-reply, once each. *)
Theorem sendContactEmail_failure (formData : ContactFormData)
    (transporter : MailTransporter) (gmailUser : jsstring) (env : Env) :
  rejections
    (snd (exec env (sendContactEmail formData transporter gmailUser))) <> [] ->
  fst (exec env (sendContactEmail formData transporter gmailUser))
  = Normal
      {| Result.success := false;
         Result.message := None;
         Result.error :=
           Some (js "メールの送信に失敗しました。しばらく経ってから再度お試しください。") |}
  /\ issued
       (afterRejection
          (snd (exec env (sendContactEmail formData transporter gmailUser))))
     = 0
  /\ length
       (rejections
          (snd (exec env (sendContactEmail formData transporter gmailUser))))
     = 1
  /\ (mails (snd (exec env (sendContactEmail formData transporter gmailUser)))
      = [mailOptions formData gmailUser]
      \/ mails (snd (exec env (sendContactEmail formData transporter gmailUser)))
         = [mailOptions formData gmailUser;
            autoReplyOptions formData gmailUser]).
Proof.
  intros Hrejected.
  destruct (sendContactEmail_exec formData transporter gmailUser env)
    as [[reason Hrun] | [[reason Hrun] | Hrun]];
    rewrite Hrun in *; cbn [fst snd] in *.
  - repeat split. left. reflexivity.
  - repeat split. right. reflexivity.
  - exfalso. apply Hrejected. reflexivity.
Qed.

(** C8: in every run the notification, addressed to the operator, is
    handed to the transporter first, and the auto-reply, addressed to the
    submitter, is handed over only after the first send was fulfilled;
    no two sends are ever pending together.  When nothing is rejected,
    both are sent, in that order. *)
Theorem sendContactEmail_order (formData : ContactFormData)
    (transporter : MailTransporter) (gmailUser : jsstring) (env : Env) :
  Sequential (snd (exec env (sendContactEmail formData transporter gmailUser)))
  /\ (mails (snd (exec env (sendContactEmail formData transporter gmailUser)))
      = [mailOptions formData gmailUser]
      /\ outcomes
           (snd (exec env (sendContactEmail formData transporter gmailUser)))
         = [false]
      \/ mails (snd (exec env (sendContactEmail formData transporter gmailUser)))
         = [mailOptions formData gmailUser;
            autoReplyOptions formData gmailUser]
         /\ head
              (outcomes
                 (snd (exec env
                         (sendContactEmail formData transporter gmailUser))))
            = Some true)
  /\ (rejections
        (snd (exec env (sendContactEmail formData transporter gmailUser))) = []
      -> mails
           (snd (exec env (sendContactEmail formData transporter gmailUser)))
         = [mailOptions formData gmailUser;
            autoReplyOptions formData gmailUser])
  /\ to (mailOptions formData gmailUser) = gmailUser
  /\ to (autoReplyOptions formData gmailUser) = email formData.
Proof.
  destruct (sendContactEmail_exec formData transporter gmailUser env)
    as [[reason Hrun] | [[reason Hrun] | Hrun]];
    rewrite Hrun; cbn [fst snd].
  - split; [repeat constructor|]. split; [left; split; reflexivity|].
    split; [discriminate|]. split; reflexivity.
  - split; [repeat constructor|]. split; [right; split; reflexivity|].
    split; [discriminate|]. split; reflexivity.
  - split; [repeat constructor|]. split; [right; split; reflexivity|].
    split; [reflexivity|]. split; reflexivity.
Qed.

(** C10: when the first send is rejected, the auto-reply is never handed
    to the transporter: the notification is the only message of the run,
    a single call was issued, and the result is the failure result. *)
Theorem sendContactEmail_first_rejected (formData : ContactFormData)
    (transporter : MailTransporter) (gmailUser : jsstring) (env : Env) :
  head
    (outcomes
       (snd (exec env (sendContactEmail formData transporter gmailUser))))
  = Some false ->
  mails (snd (exec env (sendContactEmail formData transporter gmailUser)))
  = [mailOptions formData gmailUser]
  /\ issued (snd (exec env (sendContactEmail formData transporter gmailUser)))
     = 1
  /\ fst (exec env (sendContactEmail formData transporter gmailUser))
     = Normal
         {| Result.success := false;
            Result.message := None;
            Result.error :=
              Some (js "メールの送信に失敗しました。しばらく経ってから再度お試しください。") |}.
Proof.
  intros Hfirst.
  destruct (sendContactEmail_exec formData transporter gmailUser env)
    as [[reason Hrun] | [[reason Hrun] | Hrun]];
    rewrite Hrun in *; cbn [fst snd] in *.
  - repeat split.
  - discriminate Hfirst.
  - discriminate Hfirst.
Qed.

(** ** The HTML bodies *)

Lemma escapeUnit_no_markup (c : N) :
  forallb (fun d => negb (isMarkup d)) (escapeUnit c) = true.
Proof.
  destruct (isReserved c) eqn:Hc.
  - apply isReserved_cases in Hc.
    destruct Hc as [->|[->|[->|[->| ->]]]]; reflexivity.
  - rewrite escapeUnit_plain by exact Hc.
    unfold isReserved in Hc. rewrite !orb_false_iff in Hc.
    destruct Hc as [[[[_ H2] H3] H4] H5].
    unfold isMarkup. simpl. rewrite H2, H3, H4, H5. reflexivity.
Qed.

Lemma escapeHtml_no_markup (s : jsstring) :
  forallb (fun d => negb (isMarkup d)) (escapeHtml s) = true.
Proof.
  rewrite escapeHtml_flat_map.
  induction s as [|c rest IH]; simpl; [reflexivity|].
  rewrite forallb_app, escapeUnit_no_markup, IH. reflexivity.
Qed.

Lemma markup_plain (s : jsstring) :
  forallb (fun d => negb (isMarkup d)) s = true -> markup s = [].
Proof.
  induction s as [|c rest IH]; simpl; [reflexivity|].
  intros H. apply andb_true_iff in H as [Hc Hrest].
  apply negb_true_iff in Hc. rewrite Hc. exact (IH Hrest).
Qed.

Lemma markup_escapeHtml (s : jsstring) : markup (escapeHtml s) = [].
Proof. apply markup_plain, escapeHtml_no_markup. Qed.

Lemma markup_concat (pieces : list jsstring) :
  markup (List.concat pieces) = List.concat (map markup pieces).
Proof.
  induction pieces as [|p pieces IH]; simpl; [reflexivity|].
  unfold markup in *. rewrite List.filter_app, IH. reflexivity.
Qed.

Lemma ifTruthy_isTruthy (v : option jsstring) (yes : jsstring -> jsstring)
    (no : jsstring) :
  ifTruthy v yes no = if isTruthy v then yes (default [] v) else no.
Proof. destruct v as [[|c s]|]; reflexivity. Qed.

Lemma noTagInS_app (a b : jsstring) :
  noTagInS a = true -> noTagInS b = true -> noTagInS (a ++ b) = true.
Proof.
  intros Ha Hb. induction a as [|c rest IH]; simpl in *; [exact Hb|].
  apply andb_true_iff in Ha as [Hc Hrest].
  rewrite (IH Hrest), andb_true_r.
  destruct (c =? 60)%N; [|reflexivity].
  destruct rest; [discriminate | exact Hc].
Qed.

Lemma noTagInS_concat (pieces : list jsstring) :
  Forall (fun p => noTagInS p = true) pieces ->
  noTagInS (List.concat pieces) = true.
Proof.
  induction 1 as [|p pieces Hp _ IH]; simpl; [reflexivity|].
  apply noTagInS_app; assumption.
Qed.

Lemma noTagInS_plain (s : jsstring) :
  forallb (fun d => negb (isMarkup d)) s = true -> noTagInS s = true.
Proof.
  induction s as [|c rest IH]; simpl; [reflexivity|].
  intros H. apply andb_true_iff in H as [Hc Hrest].
  rewrite (IH Hrest), andb_true_r.
  destruct (N.eqb_spec c 60) as [->|_]; [discriminate Hc | reflexivity].
Qed.

Lemma noTagInS_escapeHtml (s : jsstring) : noTagInS (escapeHtml s) = true.
Proof. apply noTagInS_plain, escapeHtml_no_markup. Qed.

Lemma noTagInS_ifTruthy (v : option jsstring) (yes : jsstring -> jsstring)
    (no : jsstring) :
  (forall s, noTagInS (yes s) = true) -> noTagInS no = true ->
  noTagInS (ifTruthy v yes no) = true.
Proof. intros Hyes Hno. destruct v as [[|c s]|]; simpl; auto. Qed.

(** A text in which no tag name starts with [s] holds no [<s...]. *)
Lemma noTagInS_excludes (s rest : jsstring) :
  noTagInS s = true -> includes s (60%N :: 115%N :: rest) = false.
Proof.
  intros Hs. induction s as [|c s IH]; [reflexivity|].
  change (includes (c :: s) (60%N :: 115%N :: rest))
    with ((60 =? c)%N && startsWith s (115%N :: rest)
          || includes s (60%N :: 115%N :: rest)).
  change (noTagInS (c :: s))
    with ((if (c =? 60)%N
           then match s with
                | d :: _ => negb (d =? 115)%N
                | [] => false
                end
           else true) && noTagInS s) in Hs.
  apply andb_true_iff in Hs as [Hc Hrest].
  rewrite (IH Hrest), orb_false_r, (N.eqb_sym 60 c).
  destruct (c =? 60)%N; [|reflexivity].
  destruct s as [|d s]; [reflexivity|].
  change (startsWith (d :: s) (115%N :: rest))
    with ((115 =? d)%N && startsWith s rest).
  rewrite (N.eqb_sym 115 d). apply negb_true_iff in Hc. rewrite Hc.
  reflexivity.
Qed.

Ltac safe_piece :=
  first [ apply noTagInS_escapeHtml
        | apply noTagInS_ifTruthy;
          [ intros ?; apply noTagInS_concat;
            repeat (constructor; [safe_piece|]); constructor
          | reflexivity ]
        | apply noTagInS_ifTruthy; [apply noTagInS_escapeHtml | reflexivity]
        | reflexivity ].

Lemma mailOptions_html_noTagInS (formData : ContactFormData)
    (gmailUser : jsstring) :
  noTagInS (html (mailOptions formData gmailUser)) = true.
Proof.
  unfold mailOptions; cbn [html]. apply noTagInS_concat.
  repeat (constructor; [safe_piece|]). constructor.
Qed.

Lemma includes_concat (pieces : list jsstring) (p needle : jsstring) :
  In p pieces -> includes p needle = true ->
  includes (List.concat pieces) needle = true.
Proof.
  intros Hin Hp. apply in_split in Hin as (l1 & l2 & ->).
  rewrite concat_app. cbn [List.concat]. apply includes_app. exact Hp.
Qed.

Ltac find_piece :=
  lazymatch goal with
  | |- In ?x (?y :: _) =>
    first [ constr_eq x y; left; exact eq_refl | right; find_piece ]
  end.

Lemma mailOptions_html_includes_name (formData : ContactFormData)
    (gmailUser needle : jsstring) :
  includes (escapeHtml (name formData)) needle = true ->
  includes (html (mailOptions formData gmailUser)) needle = true.
Proof.
  unfold mailOptions; cbn [html].
  apply includes_concat. find_piece.
Qed.

Lemma escapeHtml_includes_script (s : jsstring) :
  includes s (js "<script>") = true ->
  includes (escapeHtml s) (js "&lt;script&gt;") = true.
Proof.
  rewrite !includes_spec. intros (before & after & ->).
  exists (escapeHtml before), (escapeHtml after).
  rewrite !escapeHtml_app. reflexivity.
Qed.

Lemma markup_ifTruthy_escapeHtml (v : option jsstring) (no : jsstring) :
  markup no = [] -> markup (ifTruthy v escapeHtml no) = [].
Proof.
  intros Hno. destruct v as [[|c s]|]; simpl; auto using markup_escapeHtml.
Qed.

Ltac markup_pieces :=
  cbv beta iota;
  repeat (rewrite markup_concat; cbn [map]);
  rewrite ?markup_escapeHtml;
  rewrite ?markup_ifTruthy_escapeHtml by reflexivity.

Lemma mailOptions_html_markup (formData formData' : ContactFormData)
    (gmailUser gmailUser' : jsstring) :
  markup (html (mailOptions formData gmailUser))
  = markup (html (mailOptions formData' gmailUser')).
Proof.
  unfold mailOptions; cbn [html]. markup_pieces. reflexivity.
Qed.

Lemma autoReplyOptions_html_markup (formData formData' : ContactFormData)
    (gmailUser gmailUser' : jsstring) :
  isTruthy (company formData) = isTruthy (company formData') ->
  isTruthy (phone formData) = isTruthy (phone formData') ->
  markup (html (autoReplyOptions formData gmailUser))
  = markup (html (autoReplyOptions formData' gmailUser')).
Proof.
  intros Hcompany Hphone.
  unfold autoReplyOptions; cbn [html].
  rewrite !ifTruthy_isTruthy, Hcompany, Hphone.
  destruct (isTruthy (company formData')), (isTruthy (phone formData'));
    markup_pieces; reflexivity.
Qed.

(** C1: when the name holds [<script>], the HTML body of the first message
    handed to the transporter holds the escaped form and not the raw one.
    The first message is always the notification, and its HTML body never
    holds [<script>], whatever the fields.  In both HTML bodies every field
    value goes through [escapeHtml]: the characters that delimit tags and
    attribute values are those of the template alone, the same for all
    field values (in the auto-reply, given which optional fields are
    filled). *)
Theorem sendContactEmail_escapes_html :
  (forall (formData : ContactFormData) (transporter : MailTransporter)
          (gmailUser : jsstring) (env : Env),
      includes (name formData) (js "<script>") = true ->
      exists notification,
        head (mails (snd (exec env
                            (sendContactEmail formData transporter gmailUser))))
        = Some notification
        /\ includes (html notification) (js "&lt;script&gt;") = true
        /\ includes (html notification) (js "<script>") = false)
  /\ (forall (formData : ContactFormData) (transporter : MailTransporter)
             (gmailUser : jsstring) (env : Env),
        head (mails (snd (exec env
                            (sendContactEmail formData transporter gmailUser))))
        = Some (mailOptions formData gmailUser)
        /\ includes (html (mailOptions formData gmailUser)) (js "<script>")
           = false)
  /\ (forall (formData formData' : ContactFormData)
             (gmailUser gmailUser' : jsstring),
        markup (html (mailOptions formData gmailUser))
        = markup (html (mailOptions formData' gmailUser')))
  /\ (forall (formData formData' : ContactFormData)
             (gmailUser gmailUser' : jsstring),
        isTruthy (company formData) = isTruthy (company formData') ->
        isTruthy (phone formData) = isTruthy (phone formData') ->
        markup (html (autoReplyOptions formData gmailUser))
        = markup (html (autoReplyOptions formData' gmailUser'))).
Proof.
  assert (Hfirst :
            forall formData transporter gmailUser env,
              head (mails (snd (exec env
                                  (sendContactEmail formData transporter
                                     gmailUser))))
              = Some (mailOptions formData gmailUser)).
  { intros formData transporter gmailUser env.
    destruct (sendContactEmail_exec formData transporter gmailUser env)
      as [[reason Hrun] | [[reason Hrun] | Hrun]];
      rewrite Hrun; reflexivity. }
  assert (Hraw :
            forall formData gmailUser,
              includes (html (mailOptions formData gmailUser)) (js "<script>")
              = false).
  { intros formData gmailUser.
    apply (noTagInS_excludes _ (js "cript>")).
    apply mailOptions_html_noTagInS. }
  split; [|split; [|split]].
  - intros formData transporter gmailUser env Hname.
    exists (mailOptions formData gmailUser).
    split; [apply Hfirst|]. split; [|apply Hraw].
    apply mailOptions_html_includes_name, escapeHtml_includes_script.
    exact Hname.
  - intros formData transporter gmailUser env. split; [apply Hfirst | apply Hraw].
  - exact mailOptions_html_markup.
  - exact autoReplyOptions_html_markup.
Qed.

Lemma sendContactEmail_escapes_html_witness :
  exists notification,
    head (mails (snd (exec fulfilAll
                        (sendContactEmail xssFormData {| transporter_id := 0 |}
                           (js "admin@example.com")))))
    = Some notification
    /\ includes (html notification) (js "&lt;script&gt;") = true
    /\ includes (html notification) (js "<script>") = false.
Proof.
  apply (proj1 sendContactEmail_escapes_html xssFormData
           {| transporter_id := 0 |} (js "admin@example.com") fulfilAll).
  vm_compute. reflexivity.
Defined.

Lemma sendContactEmail_failure_witness :
  fst (exec rejectSecond
         (sendContactEmail validFormData {| transporter_id := 0 |}
            (js "admin@example.com")))
  = Normal
      {| Result.success := false;
         Result.message := None;
         Result.error :=
           Some (js "メールの送信に失敗しました。しばらく経ってから再度お試しください。") |}.
Proof.
  apply (sendContactEmail_failure validFormData {| transporter_id := 0 |}
           (js "admin@example.com") rejectSecond).
  vm_compute. discriminate.
Defined.

Lemma sendContactEmail_first_rejected_witness :
  mails (snd (exec (rejectAll (JString (js "SMTP error")))
                (sendContactEmail validFormData {| transporter_id := 0 |}
                   (js "admin@example.com"))))
  = [mailOptions validFormData (js "admin@example.com")].
Proof.
  apply (sendContactEmail_first_rejected validFormData {| transporter_id := 0 |}
           (js "admin@example.com") (rejectAll (JString (js "SMTP error")))).
  vm_compute. reflexivity.
Defined.

(** ** The cases of the test suite *)

Example escapeHtml_link :
  escapeHtml (js "<a href=" ++ DQ ++ js "test" ++ DQ ++ js ">link</a>")
  = js "&lt;a href=&quot;test&quot;&gt;link&lt;/a&gt;".
Proof. reflexivity. Qed.

Example escapeHtml_plain :
  escapeHtml (js "Hello World 日本語") = js "Hello World 日本語".
Proof. reflexivity. Qed.

Example validateSecurityAnswer_accepted :
  map (validateSecurityAnswer toLowerCaseBasicLatin)
    [js "富士山"; js "ふじさん"; js "フジサン"; js "fujisan"; js "mt.fuji";
     js "Mount Fuji"; js "  富士山  "]
  = [true; true; true; true; true; true; true].
Proof. reflexivity. Qed.

Example validateSecurityAnswer_refused :
  map (validateSecurityAnswer toLowerCaseBasicLatin)
    [js "阿蘇山"; js "エベレスト"; js ""; js "test"]
  = [false; false; false; false].
Proof. reflexivity. Qed.

Example validateContactForm_cases :
  map validateContactForm
    [validBody; bodyWithoutEmail; JNull; JUndefined; JObject ∅; JArray []]
  = [true; false; false; false; false; false].
Proof. vm_compute. reflexivity. Qed.

Example verifyRecaptcha_success :
  fst (exec fulfilAll (verifyRecaptcha (js "valid-token") (Some (js "secret-key"))))
  = Normal (JBoolean true).
Proof. vm_compute. reflexivity. Qed.

Example verifyRecaptcha_failure :
  fst (exec verificationFails
         (verifyRecaptcha (js "invalid-token") (Some (js "secret-key"))))
  = Normal (JBoolean false)
  /\ rejections
       (snd (exec verificationFails
               (verifyRecaptcha (js "invalid-token") (Some (js "secret-key")))))
     = [].
Proof. vm_compute. split; reflexivity. Qed.

Example sendContactEmail_success :
  fst (exec fulfilAll
         (sendContactEmail validFormData {| transporter_id := 0 |}
            (js "admin@example.com")))
  = Normal
      {| Result.success := true;
         Result.message :=
           Some (js "お問い合わせを受け付けました。担当者より2営業日以内にご連絡いたします。");
         Result.error := None |}
  /\ map to
       (mails
          (snd (exec fulfilAll
                  (sendContactEmail validFormData {| transporter_id := 0 |}
                     (js "admin@example.com")))))
     = [js "admin@example.com"; js "customer@example.com"].
Proof. vm_compute. split; reflexivity. Qed.

(** * Properties of the rest of the code *)

(** ** More on escapeHtml *)

Lemma escapeUnit_cases (c : N) :
  (isReserved c = false /\ escapeUnit c = [c])
  \/ (c = 38%N /\ escapeUnit c = [38; 97; 109; 112; 59]%N)
  \/ (c = 60%N /\ escapeUnit c = [38; 108; 116; 59]%N)
  \/ (c = 62%N /\ escapeUnit c = [38; 103; 116; 59]%N)
  \/ (c = 34%N /\ escapeUnit c = [38; 113; 117; 111; 116; 59]%N)
  \/ (c = 39%N /\ escapeUnit c = [38; 35; 48; 51; 57; 59]%N).
Proof.
  destruct (isReserved c) eqn:Hc.
  - right. apply isReserved_cases in Hc.
    destruct Hc as [->|[->|[->|[->| ->]]]]; auto 10.
  - left. split; [reflexivity | apply escapeUnit_plain; exact Hc].
Qed.

Lemma escapeUnit_prefix_free (c d : N) (x y : jsstring) :
  escapeUnit c ++ x = escapeUnit d ++ y -> c = d /\ x = y.
Proof.
  destruct (escapeUnit_cases c)
    as [[Hc ->] | [[-> ->] | [[-> ->] | [[-> ->] | [[-> ->] | [-> ->]]]]]];
  destruct (escapeUnit_cases d)
    as [[Hd ->] | [[-> ->] | [[-> ->] | [[-> ->] | [[-> ->] | [-> ->]]]]]];
    simpl; intros H; simplify_eq; try (split; reflexivity);
    try discriminate Hc; try discriminate Hd.
Qed.

Lemma escapeUnit_length (c : N) :
  (isReserved c = false /\ length (escapeUnit c) = 1)
  \/ (isReserved c = true /\ 4 <= length (escapeUnit c) <= 6).
Proof.
  destruct (escapeUnit_cases c)
    as [[Hc ->] | [[-> ->] | [[-> ->] | [[-> ->] | [[-> ->] | [-> ->]]]]]];
    [left | right ..]; split; try reflexivity; try assumption; simpl; lia.
Qed.

(** X1: [escapeHtml] loses nothing: two texts with the same escaped form
    are the same text (the six images of a code unit are prefix-free). *)
Theorem escapeHtml_injective (s t : jsstring) :
  escapeHtml s = escapeHtml t -> s = t.
Proof.
  rewrite !escapeHtml_flat_map. revert t.
  induction s as [|c s IH]; intros [|d t]; simpl; intros H.
  - reflexivity.
  - destruct (escapeUnit_cases d)
      as [[_ Hd] | [[_ Hd] | [[_ Hd] | [[_ Hd] | [[_ Hd] | [_ Hd]]]]]];
      rewrite Hd in H; discriminate H.
  - destruct (escapeUnit_cases c)
      as [[_ Hd] | [[_ Hd] | [[_ Hd] | [[_ Hd] | [[_ Hd] | [_ Hd]]]]]];
      rewrite Hd in H; discriminate H.
  - apply escapeUnit_prefix_free in H as [-> H]. f_equal. apply IH, H.
Qed.

Lemma escapeHtml_length_cons (c : N) (s : jsstring) :
  length (escapeHtml (c :: s)) = length (escapeUnit c) + length (escapeHtml s).
Proof. rewrite !escapeHtml_flat_map. simpl. apply length_app. Qed.

Lemma escapeHtml_length_bounds (s : jsstring) :
  length s <= length (escapeHtml s) <= 6 * length s.
Proof.
  induction s as [|c s IH]; [simpl; lia|].
  rewrite escapeHtml_length_cons. simpl length.
  destruct (escapeUnit_length c) as [[_ H] | [_ H]]; lia.
Qed.

Lemma escapeHtml_longer (s : jsstring) :
  existsb isReserved s = true -> length s < length (escapeHtml s).
Proof.
  induction s as [|c s IH]; [discriminate|].
  rewrite escapeHtml_length_cons. simpl.
  pose proof (escapeHtml_length_bounds s) as Hs.
  destruct (escapeUnit_length c) as [[Hc H] | [Hc H]]; rewrite Hc; simpl.
  - intros Hex. specialize (IH Hex). lia.
  - intros _. lia.
Qed.

(** X2: [escapeHtml] returns its input exactly when the input holds none
    of the five reserved characters; the output is never shorter than the
    input and at most six times as long. *)
Theorem escapeHtml_fixed_points (s : jsstring) :
  (escapeHtml s = s <-> existsb isReserved s = false)
  /\ length s <= length (escapeHtml s) <= 6 * length s.
Proof.
  split; [|apply escapeHtml_length_bounds].
  split.
  - intros Hfix. destruct (existsb isReserved s) eqn:Hex; [|reflexivity].
    apply escapeHtml_longer in Hex. rewrite Hfix in Hex. lia.
  - intros Hnone. rewrite escapeHtml_flat_map.
    induction s as [|c s IH]; [reflexivity|].
    simpl in *. apply orb_false_iff in Hnone as [Hc Hs].
    rewrite (escapeUnit_plain c Hc), (IH Hs). reflexivity.
Qed.

(** X3: whatever the input, the output of [escapeHtml] holds no [<], no
    [>], no double quote and no single quote. *)
Theorem escapeHtml_output_plain (s : jsstring) (c : N) :
  In c (escapeHtml s) ->
  c <> 60%N /\ c <> 62%N /\ c <> 34%N /\ c <> 39%N.
Proof.
  intros Hin. pose proof (escapeHtml_no_markup s) as Hall.
  rewrite forallb_forall in Hall. specialize (Hall c Hin).
  apply negb_true_iff in Hall. unfold isMarkup in Hall.
  rewrite !orb_false_iff, !N.eqb_neq in Hall. tauto.
Qed.

(** X4: escaping the pieces of a text one by one and joining them gives
    the escaped form of the joined text. *)
Theorem escapeHtml_concat (pieces : list jsstring) :
  escapeHtml (List.concat pieces) = List.concat (map escapeHtml pieces).
Proof.
  induction pieces as [|p pieces IH]; simpl; [reflexivity|].
  rewrite escapeHtml_app, IH. reflexivity.
Qed.

(** ** Trimming *)

Lemma trimStart_blank (s : jsstring) :
  forallb isWhiteSpace s = true -> trimStart s = [].
Proof.
  induction s as [|c s IH]; simpl; [reflexivity|].
  intros H. apply andb_true_iff in H as [-> Hs]. exact (IH Hs).
Qed.

Lemma trimEnd_blank (s : jsstring) :
  forallb isWhiteSpace s = true -> trimEnd s = [].
Proof.
  induction s as [|c s IH]; simpl; [reflexivity|].
  intros H. apply andb_true_iff in H as [-> Hs]. rewrite (IH Hs). reflexivity.
Qed.

Lemma trimStart_blank_app (blank s : jsstring) :
  forallb isWhiteSpace blank = true -> trimStart (blank ++ s) = trimStart s.
Proof.
  induction blank as [|c blank IH]; simpl; [reflexivity|].
  intros H. apply andb_true_iff in H as [-> Hs]. exact (IH Hs).
Qed.

Lemma trimEnd_app_blank (s blank : jsstring) :
  forallb isWhiteSpace blank = true -> trimEnd (s ++ blank) = trimEnd s.
Proof.
  intros Hblank. induction s as [|c s IH]; simpl.
  - apply trimEnd_blank. exact Hblank.
  - rewrite IH. reflexivity.
Qed.

Lemma trim_app_blank (s blank : jsstring) :
  forallb isWhiteSpace blank = true -> trim (s ++ blank) = trim s.
Proof.
  intros Hblank. unfold trim. induction s as [|c s IH]; simpl.
  - rewrite (trimStart_blank blank Hblank). reflexivity.
  - destruct (isWhiteSpace c); [exact IH|].
    apply (trimEnd_app_blank (c :: s)). exact Hblank.
Qed.

Lemma trim_blank_app (blank s : jsstring) :
  forallb isWhiteSpace blank = true -> trim (blank ++ s) = trim s.
Proof.
  intros Hblank. unfold trim. rewrite trimStart_blank_app by exact Hblank.
  reflexivity.
Qed.

Lemma trimStart_head (s : jsstring) :
  match trimStart s with
  | [] => True
  | c :: _ => isWhiteSpace c = false
  end.
Proof.
  induction s as [|c s IH]; simpl; [exact I|].
  destruct (isWhiteSpace c) eqn:Hc; [exact IH | exact Hc].
Qed.

Lemma trimEnd_keeps_head (c : N) (s : jsstring) :
  isWhiteSpace c = false -> exists kept, trimEnd (c :: s) = c :: kept.
Proof.
  intros Hc. simpl. destruct (trimEnd s) as [|k kept].
  - rewrite Hc. exists []. reflexivity.
  - exists (k :: kept). reflexivity.
Qed.

Lemma trimEnd_idempotent (s : jsstring) : trimEnd (trimEnd s) = trimEnd s.
Proof.
  induction s as [|c s IH]; simpl; [reflexivity|].
  destruct (trimEnd s) as [|k kept] eqn:Hs.
  - destruct (isWhiteSpace c) eqn:Hc; simpl; [reflexivity|].
    rewrite Hc. reflexivity.
  - change (trimEnd (c :: k :: kept))
      with (match trimEnd (k :: kept) with
            | [] => if isWhiteSpace c then [] else [c]
            | kept' => c :: kept'
            end).
    rewrite IH. reflexivity.
Qed.

Lemma trim_trimmed (s : jsstring) :
  trimStart (trim s) = trim s /\ trimEnd (trim s) = trim s.
Proof.
  unfold trim. split; [|apply trimEnd_idempotent].
  pose proof (trimStart_head s) as Hhead.
  destruct (trimStart s) as [|c rest]; [reflexivity|].
  destruct (trimEnd_keeps_head c rest Hhead) as [kept ->].
  simpl. rewrite Hhead. reflexivity.
Qed.

(** ** More on validateSecurityAnswer *)

(** X5: each of the seven listed variants is itself an accepted answer,
    whatever the host's lower-case mapping does. *)
Theorem validateSecurityAnswer_variants (toLowerCase : jsstring -> jsstring) :
  Forall (fun variant => validateSecurityAnswer toLowerCase variant = true)
    SECURITY_ANSWER_VARIANTS.
Proof.
  apply List.Forall_forall. intros v Hin.
  apply validateSecurityAnswer_normalizeSpec.
  apply List.Exists_exists. exists v. split; [exact Hin | reflexivity].
Qed.

Lemma validateSecurityAnswer_trim (toLowerCase : jsstring -> jsstring)
    (a b : jsstring) :
  trim a = trim b ->
  validateSecurityAnswer toLowerCase a = validateSecurityAnswer toLowerCase b.
Proof. intros H. unfold validateSecurityAnswer. rewrite H. reflexivity. Qed.

(** X6: white space before and after an answer never changes the
    verdict. *)
Theorem validateSecurityAnswer_surrounding_blank
    (toLowerCase : jsstring -> jsstring) (before answer after : jsstring) :
  forallb isWhiteSpace before = true ->
  forallb isWhiteSpace after = true ->
  validateSecurityAnswer toLowerCase (before ++ answer ++ after)
  = validateSecurityAnswer toLowerCase answer.
Proof.
  intros Hbefore Hafter. apply validateSecurityAnswer_trim.
  rewrite trim_blank_app by exact Hbefore.
  apply trim_app_blank. exact Hafter.
Qed.

Lemma validateSecurityAnswer_surrounding_blank_witness :
  validateSecurityAnswer toLowerCaseBasicLatin
    (js "  " ++ js "Mt. Fuji" ++ [9; 10]%N)
  = validateSecurityAnswer toLowerCaseBasicLatin (js "Mt. Fuji").
Proof.
  apply (validateSecurityAnswer_surrounding_blank toLowerCaseBasicLatin
           (js "  ") (js "Mt. Fuji") [9; 10]%N); reflexivity.
Defined.

(** ** More on validateContactForm *)




(** ** More on verifyRecaptcha *)

(** The runs of a configured verification, from any point of a larger run. *)
Lemma verifyRecaptcha_run (token : jsstring) (c : N) (key : jsstring)
    (env : Env) (seen : list Observation) :
  let request :=
    Fetch (js "https://www.google.com/recaptcha/api/siteverify")
      {| method := js "POST";
         headers :=
           [(js "Content-Type", js "application/x-www-form-urlencoded")];
         body := [(js "secret", c :: key); (js "response", token)] |} in
  let result := run env (verifyRecaptcha token (@Some jsstring (c :: key))) seen in
  (exists reason,
      result
      = (Normal (JBoolean false),
         seen ++ [Called request; Resumed request (Rejected reason);
                  Logged LevelError
                    [JString (js "reCAPTCHA verification error:"); reason]]))
  \/ (exists response reason,
        result
        = (Normal (JBoolean false),
           seen ++ [Called request; Resumed request (Fulfilled response);
                    Called (ResponseJson response);
                    Resumed (ResponseJson response) (Rejected reason);
                    Logged LevelError
                      [JString (js "reCAPTCHA verification error:"); reason]]))
  \/ (exists response data,
        (data = JUndefined \/ data = JNull)
        /\ result
           = (Normal (JBoolean false),
              seen ++ [Called request; Resumed request (Fulfilled response);
                       Called (ResponseJson response);
                       Resumed (ResponseJson response) (Fulfilled data);
                       Logged LevelError
                         [JString (js "reCAPTCHA verification error:");
                          TypeError]]))
  \/ (exists response data,
        data <> JUndefined /\ data <> JNull
        /\ result
           = (Normal (getProp data (js "success")),
              seen ++ [Called request; Resumed request (Fulfilled response);
                       Called (ResponseJson response);
                       Resumed (ResponseJson response) (Fulfilled data)]
                   ++ (if truthy (getProp data (js "success")) then []
                       else [Logged LevelError
                               [JString (js "reCAPTCHA verification failed:");
                                getProp data (js "error-codes")]]))).
Proof.
  intros request result. subst result.
  unfold verifyRecaptcha. fold request.
  rewrite run_tryCatch, run_bind, run_await.
  match goal with
  | |- context [env Response ?h ?q] =>
    destruct (env Response h q) as [response | reason]
  end.
  2:{ left. exists reason. cbn - [js]. rewrite <- app_assoc. reflexivity. }
  rewrite run_bind, run_await.
  match goal with
  | |- context [env JsValue ?h ?q] =>
    destruct (env JsValue h q) as [data | reason]
  end.
  2:{ right. left. exists response, reason. cbn - [js].
      rewrite <- !app_assoc. reflexivity. }
  right. right.
  destruct data as [| |b|x|s|elements|props];
    [ left; exists response, JUndefined
    | left; exists response, JNull
    | right; exists response, (JBoolean b)
    | right; exists response, (JNumber x)
    | right; exists response, (JString s)
    | right; exists response, (JArray elements)
    | right; exists response, (JObject props) ];
    cbn [member bind tryCatch].
  1,2: split; [auto|]; cbn - [js]; rewrite <- !app_assoc; reflexivity.
  all: split; [discriminate|]; split; [discriminate|].
  all: match goal with
       | |- context [truthy ?v] => destruct (truthy v)
       end;
    cbn - [js getProp]; rewrite <- !app_assoc; reflexivity.
Qed.

Lemma verifyRecaptcha_run_unset (token : jsstring) (secretKey : option jsstring)
    (env : Env) (seen : list Observation) :
  isTruthy secretKey = false ->
  run env (verifyRecaptcha token secretKey) seen
  = (Normal (JBoolean true),
     seen ++ [Logged LevelWarn
                [JString
                   (js "RECAPTCHA_SECRET_KEY not set, skipping verification")]]).
Proof.
  destruct secretKey as [[|c k]|]; [reflexivity | discriminate | reflexivity].
Qed.

(** X8: [verifyRecaptcha] never throws: with any token, any key and any
    behaviour of the outside it returns a value; it issues at most two
    calls (the request and the read of its body), sends no mail and writes
    at most one console line. *)
Theorem verifyRecaptcha_never_throws (token : jsstring)
    (secretKey : option jsstring) (env : Env) :
  (exists value,
      fst (exec env (verifyRecaptcha token secretKey)) = Normal value)
  /\ issued (snd (exec env (verifyRecaptcha token secretKey))) <= 2
  /\ mails (snd (exec env (verifyRecaptcha token secretKey))) = []
  /\ length (logs (snd (exec env (verifyRecaptcha token secretKey)))) <= 1.
Proof.
  unfold exec.
  destruct secretKey as [[|c key]|].
  - rewrite verifyRecaptcha_run_unset by reflexivity.
    repeat split; cbn - [js getProp]; eauto.
  - pose proof (verifyRecaptcha_run token c key env []) as Hrun.
    cbv zeta in Hrun.
    destruct Hrun
      as [(reason & ->) | [(response & reason & ->)
          | [(response & data & _ & ->) | (response & data & _ & _ & ->)]]];
      cbn [fst snd app]; try (repeat split; cbn - [js getProp]; eauto; fail).
    destruct (truthy _); repeat split; cbn - [js getProp]; eauto.
  - rewrite verifyRecaptcha_run_unset by reflexivity.
    repeat split; cbn - [js getProp]; eauto.
Qed.

(** X9: when the verification endpoint answers with a JSON body,
    [verifyRecaptcha] returns the body's [success] property as it is (of
    whatever type), and [false] when the body is [null] (the property read
    throws inside the [try] block); the failure line with the body's
    [error-codes] is logged exactly when the body is not [null] or
    [undefined] and [success] is falsy. *)
Theorem verifyRecaptcha_returns_success (token secretKey : jsstring)
    (env : Env) (data : JsValue) :
  secretKey <> [] ->
  parsedBody (snd (exec env (verifyRecaptcha token (Some secretKey))))
  = Some data ->
  fst (exec env (verifyRecaptcha token (Some secretKey)))
  = Normal
      (match data with
       | JUndefined | JNull => JBoolean false
       | _ => getProp data (js "success")
       end)
  /\ (In (LevelError,
          [JString (js "reCAPTCHA verification failed:");
           getProp data (js "error-codes")])
        (logs (snd (exec env (verifyRecaptcha token (Some secretKey)))))
      <-> data <> JUndefined /\ data <> JNull
          /\ truthy (getProp data (js "success")) = false).
Proof.
  intros Hkey. destruct secretKey as [|c key]; [contradiction|]. clear Hkey.
  unfold exec.
  pose proof (verifyRecaptcha_run token c key env []) as Hrun.
  cbv zeta in Hrun.
  destruct Hrun
    as [(reason & ->) | [(response & reason & ->)
        | [(response & d & Hd & ->) | (response & d & Hu & Hn & ->)]]];
    cbn [fst snd app].
  - discriminate.
  - discriminate.
  - intros Hparsed. injection Hparsed as ->.
    split; [destruct Hd as [-> | ->]; reflexivity|].
    split; [|intros (Hu & Hn & _); destruct Hd; contradiction].
    cbn - [js getProp]. intros [Hin | []].
    apply (f_equal (fun line => match snd line with
                                | JString text :: _ => text
                                | _ => []
                                end)) in Hin.
    vm_compute in Hin. discriminate Hin.
  - destruct (truthy (getProp d (js "success"))) eqn:Htruthy;
      intros Hparsed; injection Hparsed as ->.
    + split; [destruct data; try reflexivity; contradiction|].
      cbn - [js getProp].
      split; [intros [] | intros (_ & _ & H); congruence].
    + split; [destruct data; try reflexivity; contradiction|].
      cbn - [js getProp].
      split; [intros _; auto | intros _; left; reflexivity].
Qed.

Lemma verifyRecaptcha_returns_success_witness :
  fst (exec verificationFails
         (verifyRecaptcha (js "invalid-token") (Some (js "secret-key"))))
  = Normal (JBoolean false).
Proof.
  apply (proj1 (verifyRecaptcha_returns_success (js "invalid-token")
                  (js "secret-key") verificationFails
                  (JObject
                     (<[ js "success" := JBoolean false ]>
                     (<[ js "error-codes" :=
                           JArray [JString (js "invalid-input-response")] ]>
                        ∅)))
                  ltac:(discriminate) eq_refl)).
Defined.

(** ** More on sendContactEmail *)

(** The three runs of [sendContactEmail], from any point of a larger run. *)
Lemma sendContactEmail_run (formData : ContactFormData)
    (transporter : MailTransporter) (gmailUser : jsstring) (env : Env)
    (seen : list Observation) :
  let first := SendMail transporter (mailOptions formData gmailUser) in
  let second := SendMail transporter (autoReplyOptions formData gmailUser) in
  let failed :=
    {| Result.success := false;
       Result.message := None;
       Result.error :=
         Some (js "メールの送信に失敗しました。しばらく経ってから再度お試しください。") |} in
  let result := run env (sendContactEmail formData transporter gmailUser) seen in
  (exists reason,
      result
      = (Normal failed,
         seen ++ [Called first; Resumed first (Rejected reason);
                  Logged LevelError
                    [JString (js "Failed to send contact email:"); reason]]))
  \/ (exists reason,
        result
        = (Normal failed,
           seen ++ [Called first; Resumed first (Fulfilled tt);
                    Called second; Resumed second (Rejected reason);
                    Logged LevelError
                      [JString (js "Failed to send contact email:"); reason]]))
  \/ result
     = (Normal
          {| Result.success := true;
             Result.message :=
               Some (js "お問い合わせを受け付けました。担当者より2営業日以内にご連絡いたします。");
             Result.error := None |},
        seen ++ [Called first; Resumed first (Fulfilled tt);
                 Called second; Resumed second (Fulfilled tt);
                 Logged LevelLog
                   [JString
                      (js "Contact form submitted successfully from: "
                       ++ email formData)]]).
Proof.
  intros first second failed result. subst result.
  unfold sendContactEmail. fold first second.
  rewrite run_tryCatch, run_bind, run_await.
  match goal with
  | |- context [env unit ?h first] => destruct (env unit h first) as [[] | reason]
  end.
  2:{ left. exists reason. cbn - [js]. rewrite <- app_assoc. reflexivity. }
  rewrite run_bind, run_await.
  match goal with
  | |- context [env unit ?h second] =>
    destruct (env unit h second) as [[] | reason]
  end.
  2:{ right. left. exists reason. cbn - [js]. rewrite <- !app_assoc.
      reflexivity. }
  right. right. cbn - [js]. rewrite <- !app_assoc. reflexivity.
Qed.

(** X10: [sendContactEmail] never throws.  Its result has [success]
    true exactly when no send was rejected; then it carries the fixed
    confirmation and no error, and both mails were sent and fulfilled, the
    notification first; otherwise it carries the fixed error and no
    message. *)
Theorem sendContactEmail_never_throws (formData : ContactFormData)
    (transporter : MailTransporter) (gmailUser : jsstring) (env : Env) :
  exists result,
    fst (exec env (sendContactEmail formData transporter gmailUser))
    = Normal result
    /\ (Result.success result = true <->
        rejections
          (snd (exec env (sendContactEmail formData transporter gmailUser)))
        = [])
    /\ (Result.success result = true ->
        Result.message result
        = Some (js "お問い合わせを受け付けました。担当者より2営業日以内にご連絡いたします。")
        /\ Result.error result = None
        /\ mails
             (snd (exec env (sendContactEmail formData transporter gmailUser)))
           = [mailOptions formData gmailUser;
              autoReplyOptions formData gmailUser]
        /\ outcomes
             (snd (exec env (sendContactEmail formData transporter gmailUser)))
           = [true; true])
    /\ (Result.success result = false ->
        Result.message result = None
        /\ Result.error result
           = Some (js "メールの送信に失敗しました。しばらく経ってから再度お試しください。")).
Proof.
  destruct (sendContactEmail_exec formData transporter gmailUser env)
    as [[reason Hrun] | [[reason Hrun] | Hrun]];
    rewrite Hrun; cbn [fst snd]; eexists; (split; [reflexivity|]);
    cbn [Result.success Result.message Result.error].
  - split; [split; discriminate|]. split; [discriminate|]. auto.
  - split; [split; discriminate|]. split; [discriminate|]. auto.
  - split; [split; reflexivity|]. split; [|discriminate]. intros _.
    repeat split.
Qed.

(** ** The plain-text bodies *)

Ltac last_pieces :=
  cbn [List.concat]; rewrite !app_nil_r, !app_assoc;
  rewrite !(trim_app_blank _ (js "      ")) by reflexivity;
  rewrite !(trim_app_blank _ LF) by reflexivity.

(** X11: the plain-text bodies of both mails neither start nor end with
    white space, and white space at the end of the message does not reach
    the notification's plain text (the template ends with the message and
    is trimmed as a whole). *)
Theorem text_bodies_trimmed (formData : ContactFormData)
    (gmailUser : jsstring) :
  (trimStart (text (mailOptions formData gmailUser))
   = text (mailOptions formData gmailUser)
   /\ trimEnd (text (mailOptions formData gmailUser))
      = text (mailOptions formData gmailUser))
  /\ (trimStart (text (autoReplyOptions formData gmailUser))
      = text (autoReplyOptions formData gmailUser)
      /\ trimEnd (text (autoReplyOptions formData gmailUser))
         = text (autoReplyOptions formData gmailUser))
  /\ (forall blank : jsstring,
        forallb isWhiteSpace blank = true ->
        text (mailOptions
                (withMessage formData (message formData ++ blank)) gmailUser)
        = text (mailOptions formData gmailUser)).
Proof.
  split; [apply trim_trimmed|]. split; [apply trim_trimmed|].
  intros blank Hblank.
  unfold mailOptions, withMessage;
    cbn [text name company email phone message].
  last_pieces.
  rewrite (trim_app_blank _ blank) by exact Hblank. reflexivity.
Qed.

(** ** The HTML body of the auto-reply *)

Lemma noTagInSc_app (a b : jsstring) :
  noTagInSc a = true -> noTagInSc b = true -> noTagInSc (a ++ b) = true.
Proof.
  intros Ha Hb. induction a as [|c rest IH]; [exact Hb|].
  change (noTagInSc (c :: rest))
    with ((if (c =? 60)%N
           then match rest with
                | d :: rest' =>
                  if (d =? 115)%N
                  then match rest' with
                       | e :: _ => negb (e =? 99)%N
                       | [] => false
                       end
                  else true
                | [] => false
                end
           else true) && noTagInSc rest) in Ha.
  apply andb_true_iff in Ha as [Hc Hrest].
  change (noTagInSc ((c :: rest) ++ b))
    with ((if (c =? 60)%N
           then match rest ++ b with
                | d :: rest' =>
                  if (d =? 115)%N
                  then match rest' with
                       | e :: _ => negb (e =? 99)%N
                       | [] => false
                       end
                  else true
                | [] => false
                end
           else true) && noTagInSc (rest ++ b)).
  rewrite (IH Hrest), andb_true_r.
  destruct (c =? 60)%N; [|reflexivity].
  destruct rest as [|d rest']; [discriminate Hc|]. cbn [app].
  destruct (d =? 115)%N; [|reflexivity].
  destruct rest' as [|e rest'']; [discriminate Hc | exact Hc].
Qed.

Lemma noTagInSc_concat (pieces : list jsstring) :
  Forall (fun p => noTagInSc p = true) pieces ->
  noTagInSc (List.concat pieces) = true.
Proof.
  induction 1 as [|p pieces Hp _ IH]; [reflexivity|].
  cbn [List.concat]. apply noTagInSc_app; assumption.
Qed.

Lemma noTagInSc_plain (s : jsstring) :
  forallb (fun d => negb (isMarkup d)) s = true -> noTagInSc s = true.
Proof.
  induction s as [|c rest IH]; [reflexivity|].
  cbn [forallb]. intros H. apply andb_true_iff in H as [Hc Hrest].
  change (noTagInSc (c :: rest))
    with ((if (c =? 60)%N
           then match rest with
                | d :: rest' =>
                  if (d =? 115)%N
                  then match rest' with
                       | e :: _ => negb (e =? 99)%N
                       | [] => false
                       end
                  else true
                | [] => false
                end
           else true) && noTagInSc rest).
  rewrite (IH Hrest), andb_true_r.
  destruct (N.eqb_spec c 60) as [->|_]; [discriminate Hc | reflexivity].
Qed.

Lemma noTagInSc_escapeHtml (s : jsstring) : noTagInSc (escapeHtml s) = true.
Proof. apply noTagInSc_plain, escapeHtml_no_markup. Qed.

Lemma noTagInSc_ifTruthy (v : option jsstring) (yes : jsstring -> jsstring)
    (no : jsstring) :
  (forall s, noTagInSc (yes s) = true) -> noTagInSc no = true ->
  noTagInSc (ifTruthy v yes no) = true.
Proof. intros Hyes Hno. destruct v as [[|c s]|]; cbn [ifTruthy]; auto. Qed.

Lemma noTagInSc_excludes (s rest : jsstring) :
  noTagInSc s = true -> includes s (60%N :: 115%N :: 99%N :: rest) = false.
Proof.
  intros Hs. induction s as [|c s IH]; [reflexivity|].
  change (includes (c :: s) (60%N :: 115%N :: 99%N :: rest))
    with ((60 =? c)%N && startsWith s (115%N :: 99%N :: rest)
          || includes s (60%N :: 115%N :: 99%N :: rest)).
  change (noTagInSc (c :: s))
    with ((if (c =? 60)%N
           then match s with
                | d :: rest' =>
                  if (d =? 115)%N
                  then match rest' with
                       | e :: _ => negb (e =? 99)%N
                       | [] => false
                       end
                  else true
                | [] => false
                end
           else true) && noTagInSc s) in Hs.
  apply andb_true_iff in Hs as [Hc Hrest].
  rewrite (IH Hrest), orb_false_r, (N.eqb_sym 60 c).
  destruct (c =? 60)%N; [|reflexivity].
  destruct s as [|d s]; [reflexivity|].
  change (startsWith (d :: s) (115%N :: 99%N :: rest))
    with ((115 =? d)%N && startsWith s (99%N :: rest)).
  rewrite (N.eqb_sym 115 d).
  destruct (d =? 115)%N; [|reflexivity].
  destruct s as [|e s]; [reflexivity|].
  change (startsWith (e :: s) (99%N :: rest))
    with ((99 =? e)%N && startsWith s rest).
  rewrite (N.eqb_sym 99 e). apply negb_true_iff in Hc. rewrite Hc.
  reflexivity.
Qed.

Ltac safe_piece_sc :=
  first [ apply noTagInSc_escapeHtml
        | apply noTagInSc_ifTruthy;
          [ intros ?; apply noTagInSc_concat;
            repeat (constructor; [safe_piece_sc|]); constructor
          | reflexivity ]
        | reflexivity ].

Lemma autoReplyOptions_html_noTagInSc (formData : ContactFormData)
    (gmailUser : jsstring) :
  noTagInSc (html (autoReplyOptions formData gmailUser)) = true.
Proof.
  unfold autoReplyOptions; cbn [html]. apply noTagInSc_concat.
  repeat (constructor; [safe_piece_sc|]). constructor.
Qed.

Lemma autoReplyOptions_html_includes_name (formData : ContactFormData)
    (gmailUser needle : jsstring) :
  includes (escapeHtml (name formData)) needle = true ->
  includes (html (autoReplyOptions formData gmailUser)) needle = true.
Proof.
  unfold autoReplyOptions; cbn [html].
  apply includes_concat. find_piece.
Qed.

(** X12: the HTML body of the auto-reply never holds [<script>], whatever
    the fields; when the name holds it, the body holds the escaped form. *)
Theorem autoReply_html_no_script :
  (forall (formData : ContactFormData) (gmailUser : jsstring),
      includes (html (autoReplyOptions formData gmailUser)) (js "<script>")
      = false)
  /\ (forall (formData : ContactFormData) (gmailUser : jsstring),
        includes (name formData) (js "<script>") = true ->
        includes (html (autoReplyOptions formData gmailUser))
          (js "&lt;script&gt;") = true).
Proof.
  split.
  - intros formData gmailUser.
    apply (noTagInSc_excludes _ (js "ript>")).
    apply autoReplyOptions_html_noTagInSc.
  - intros formData gmailUser Hname.
    apply autoReplyOptions_html_includes_name, escapeHtml_includes_script.
    exact Hname.
Qed.

(** ** The request handlers *)

Lemma validateContactForm_answer (body : JsValue) :
  validateContactForm body = true ->
  exists answer, getProp body (js "securityAnswer") = JString answer.
Proof.
  intros Hvalid. apply validateContactForm_validForm in Hvalid.
  destruct Hvalid as (_ & _ & _ & _ & _ & Hanswer). exact Hanswer.
Qed.

Lemma mails_app (a b : list Observation) : mails (a ++ b) = mails a ++ mails b.
Proof. apply omap_app. Qed.


Lemma issued_app (a b : list Observation) :
  issued (a ++ b) = issued a + issued b.
Proof. unfold issued. rewrite List.filter_app, length_app. reflexivity. Qed.

(** What a verification leaves behind, whatever the key. *)
Lemma verifyRecaptcha_run_any (token : jsstring) (secretKey : option jsstring)
    (env : Env) (seen : list Observation) :
  exists value more,
    run env (verifyRecaptcha token secretKey) seen = (Normal value, seen ++ more)
    /\ mails more = []
    /\ (truthy value = true -> rejections more = [])
    /\ (isTruthy secretKey = false ->
        value = JBoolean true /\ issued more = 0 /\ fetches more = [])
    /\ (isTruthy secretKey = true -> length (fetches more) = 1).
Proof.
  destruct secretKey as [[|c key]|].
  - rewrite verifyRecaptcha_run_unset by reflexivity.
    eexists _, _. split; [reflexivity|]. repeat split; discriminate.
  - pose proof (verifyRecaptcha_run token c key env seen) as Hrun.
    cbv zeta in Hrun.
    destruct Hrun
      as [(reason & ->) | [(response & reason & ->)
          | [(response & data & _ & ->) | (response & data & _ & _ & ->)]]];
      eexists _, _; (split; [reflexivity|]);
      try (repeat split; discriminate).
    destruct (truthy (getProp data (js "success"))) eqn:Hsuccess;
      repeat split; try discriminate.
  - rewrite verifyRecaptcha_run_unset by reflexivity.
    eexists _, _. split; [reflexivity|]. repeat split; discriminate.
Qed.

(** What the two sends leave behind. *)
Lemma sendContactEmail_run_any (formData : ContactFormData)
    (transporter : MailTransporter) (gmailUser : jsstring) (env : Env)
    (seen : list Observation) :
  exists result more,
    run env (sendContactEmail formData transporter gmailUser) seen
    = (Normal result, seen ++ more)
    /\ fetches more = []
    /\ head (mails more) = Some (mailOptions formData gmailUser)
    /\ (Result.success result = true ->
        result
        = {| Result.success := true;
             Result.message :=
               Some (js "お問い合わせを受け付けました。担当者より2営業日以内にご連絡いたします。");
             Result.error := None |}
        /\ mails more
           = [mailOptions formData gmailUser;
              autoReplyOptions formData gmailUser]
        /\ rejections more = [])
    /\ (Result.success result = false ->
        result
        = {| Result.success := false;
             Result.message := None;
             Result.error :=
               Some (js "メールの送信に失敗しました。しばらく経ってから再度お試しください。") |}
        /\ rejections more <> []).
Proof.
  pose proof (sendContactEmail_run formData transporter gmailUser env seen)
    as Hrun.
  cbv zeta in Hrun.
  destruct Hrun as [[reason ->] | [[reason ->] | ->]];
    eexists _, _; (split; [reflexivity|]);
    (split; [reflexivity|]); (split; [reflexivity|]);
    split; intros Hsuccess; try discriminate Hsuccess;
    repeat split; discriminate.
Qed.

Lemma verification_facts (token : jsstring) (secretKey : option jsstring)
    (env : Env) (value : JsValue) (more : list Observation) :
  run env (verifyRecaptcha token secretKey) [] = (Normal value, more) ->
  mails more = []
  /\ (truthy value = true -> rejections more = [])
  /\ (isTruthy secretKey = false ->
      value = JBoolean true /\ issued more = 0 /\ fetches more = [])
  /\ (isTruthy secretKey = true -> length (fetches more) = 1).
Proof.
  intros Hrun.
  destruct (verifyRecaptcha_run_any token secretKey env [])
    as (value' & more' & Hrun' & Hfacts).
  rewrite Hrun in Hrun'. injection Hrun' as -> ->. exact Hfacts.
Qed.

Lemma send_facts (formData : ContactFormData) (transporter : MailTransporter)
    (gmailUser : jsstring) (env : Env) (seen more : list Observation)
    (sent : Result.SendContactEmailResult) :
  run env (sendContactEmail formData transporter gmailUser) seen
  = (Normal sent, seen ++ more) ->
  fetches more = []
  /\ head (mails more) = Some (mailOptions formData gmailUser)
  /\ (Result.success sent = true ->
      sent
      = {| Result.success := true;
           Result.message :=
             Some (js "お問い合わせを受け付けました。担当者より2営業日以内にご連絡いたします。");
           Result.error := None |}
      /\ mails more
         = [mailOptions formData gmailUser;
            autoReplyOptions formData gmailUser]
      /\ rejections more = [])
  /\ (Result.success sent = false ->
      sent
      = {| Result.success := false;
           Result.message := None;
           Result.error :=
             Some (js "メールの送信に失敗しました。しばらく経ってから再度お試しください。") |}
      /\ rejections more <> []).
Proof.
  intros Hrun.
  destruct (sendContactEmail_run_any formData transporter gmailUser env seen)
    as (sent' & more' & Hrun' & Hfacts).
  rewrite Hrun in Hrun'. injection Hrun' as -> Hmore.
  apply app_inv_head in Hmore as ->. exact Hfacts.
Qed.

Section HandlerProperties.

Variable toLowerCase : jsstring -> jsstring.
Variable ToString : JsValue -> jsstring.
Variable createTransport : TransportOptions -> MailTransporter.

(** The runs of the serverless function. *)
Lemma handler_run (processEnv : ProcessEnv) (req : Vercel.VercelRequest)
    (env : Env) :
  let body := Vercel.body req in
  let result := exec env (handler toLowerCase ToString createTransport processEnv req) in
  (Vercel.method req <> Some (js "POST")
   /\ result
      = (Normal {| status := 405; json := errorJson (js "Method not allowed") |},
         []))
  \/ (Vercel.method req = Some (js "POST")
      /\ passesGates toLowerCase body = false
      /\ exists error,
          In error handlerErrors
          /\ result = (Normal {| status := 400; json := errorJson error |}, []))
  \/ (Vercel.method req = Some (js "POST")
      /\ passesGates toLowerCase body = true
      /\ exists value more,
          run env
            (verifyRecaptcha (tokenText ToString (getProp body (js "recaptchaToken")))
               (RECAPTCHA_SECRET_KEY processEnv)) []
          = (Normal value, more)
          /\ (truthy value = false
              /\ result
                 = (Normal
                      {| status := 400;
                         json :=
                           errorJson (js "reCAPTCHA認証に失敗しました。再度お試しください。") |},
                    more)
              \/ truthy value = true
                 /\ credentials processEnv = None
                 /\ result
                    = (Normal
                         {| status := 500;
                            json :=
                              errorJson
                                (js "サーバーの設定に問題があります。管理者にお問い合わせください。") |},
                       more
                       ++ [Logged LevelError
                             [JString
                                (js "GMAIL_USER or GMAIL_APP_PASSWORD not configured")]])
              \/ truthy value = true
                 /\ (exists gmailUser gmailAppPassword,
                        credentials processEnv
                        = Some (gmailUser, gmailAppPassword))
                 /\ formDataOf body = None
                 /\ result
                    = (Normal
                         {| status := 500;
                            json :=
                              JObject
                                (<[ js "error" := JString (js "メールの送信に失敗しました。しばらく経ってから再度お試しください。") ]> ∅) |},
                       more
                       ++ [Logged LevelError
                             [JString (js "Failed to send contact email:");
                              TypeError]])
              \/ truthy value = true
                 /\ exists gmailUser gmailAppPassword formData sent more',
                     credentials processEnv = Some (gmailUser, gmailAppPassword)
                     /\ formDataOf body = Some formData
                     /\ run env
                          (sendContactEmail formData
                             (createMailTransporter createTransport gmailUser
                                gmailAppPassword)
                             gmailUser) more
                        = (Normal sent, more ++ more')
                     /\ result
                        = (Normal
                             (if Result.success sent
                              then
                                {| status := 200;
                                   json :=
                                     successJson
                                       (optionalValue (Result.message sent)) |}
                              else
                                {| status := 500;
                                   json :=
                                     JObject
                                       (<[ js "error" :=
                                             optionalValue (Result.error sent) ]>
                                          ∅) |}),
                           more ++ more'))).
Proof.
  intros body result. subst result. unfold exec, handler. fold body.
  destruct (bool_decide (Vercel.method req = Some (js "POST"))) eqn:Hpost;
    cbn [negb].
  2:{ left. apply bool_decide_eq_false in Hpost. split; [exact Hpost|].
      reflexivity. }
  apply bool_decide_eq_true in Hpost. right.
  unfold passesGates.
  destruct (validateContactForm body) eqn:Hvalid; cbn [negb andb].
  2:{ left. split; [exact Hpost|]. split; [reflexivity|].
      eexists. split; [|reflexivity]. unfold handlerErrors. find_piece. }
  destruct (validateContactForm_answer body Hvalid) as [answer Hanswer].
  rewrite Hanswer. cbn [stringArgument bind].
  destruct (validateSecurityAnswer toLowerCase answer); cbn [negb andb].
  2:{ left. split; [exact Hpost|]. split; [reflexivity|].
      eexists. split; [|reflexivity]. unfold handlerErrors. find_piece. }
  destruct (truthy (getProp body (js "recaptchaToken"))); cbn [negb andb].
  2:{ left. split; [exact Hpost|]. split; [reflexivity|].
      eexists. split; [|reflexivity]. unfold handlerErrors. find_piece. }
  right. split; [exact Hpost|]. split; [reflexivity|].
  rewrite run_bind.
  destruct (verifyRecaptcha_run_any
              (tokenText ToString (getProp body (js "recaptchaToken")))
              (RECAPTCHA_SECRET_KEY processEnv) env [])
    as (value & more & Hrun & _).
  rewrite Hrun. cbn [app]. exists value, more. split; [reflexivity|].
  destruct (truthy value); cbn [negb].
  2:{ left. split; reflexivity. }
  right.
  destruct (credentials processEnv) as [[gmailUser gmailAppPassword]|].
  2:{ left. split; [reflexivity|]. split; reflexivity. }
  right. rewrite run_bind. unfold sendContactEmailBody.
  assert (Hobject :
            validateContactForm body = true ->
            body <> JUndefined /\ body <> JNull).
  { intros H. apply validateContactForm_validForm in H.
    destruct H as (Htype & Hnull & _). split; [|exact Hnull].
    intros ->. discriminate Htype. }
  destruct (Hobject Hvalid) as [Hundefined Hnull].
  destruct (formDataOf body) as [formData|] eqn:Hform.
  - right. split; [reflexivity|].
    destruct (sendContactEmail_run_any formData
                (createMailTransporter createTransport gmailUser
                   gmailAppPassword)
                gmailUser env more)
      as (sent & more' & Hsend & _).
    exists gmailUser, gmailAppPassword, formData, sent, more'.
    split; [reflexivity|]. split; [reflexivity|]. split; [exact Hsend|].
    destruct body; try contradiction; rewrite Hsend;
      destruct (Result.success sent); reflexivity.
  - left. split; [reflexivity|].
    split; [exists gmailUser, gmailAppPassword; reflexivity|].
    split; [reflexivity|].
    destruct body; try contradiction; reflexivity.
Qed.


Ltac handler_cases processEnv req env :=
  let Hrun := fresh "Hrun" in
  pose proof (handler_run processEnv req env) as Hrun;
  cbv zeta in Hrun;
  destruct Hrun
    as [(Hmethod & Hrun)
       | [(Hmethod & Hgates & error & Herror & Hrun)
         | (Hmethod & Hgates & value & more & Hverify
            & [(Hvalue & Hrun)
              | [(Hvalue & Hcredentials & Hrun)
                | [(Hvalue & (gmailUser & gmailAppPassword & Hcredentials)
                    & Hform & Hrun)
                  | (Hvalue & gmailUser & gmailAppPassword & formData & sent
                     & more' & Hcredentials & Hform & Hsend & Hrun)]]])]];
  rewrite Hrun in *; cbn [fst snd] in *.

(** X13: a request whose method is not POST is answered 405 by the
    serverless function, with nothing read, called or logged. *)
Theorem handler_method_not_allowed (processEnv : ProcessEnv)
    (req : Vercel.VercelRequest) (env : Env) :
  Vercel.method req <> Some (js "POST") ->
  exec env (handler toLowerCase ToString createTransport processEnv req)
  = (Normal {| status := 405; json := errorJson (js "Method not allowed") |},
     []).
Proof.
  intros Hnot. handler_cases processEnv req env;
    [reflexivity | contradiction ..].
Qed.

(** X14: a POST whose body is not a valid form, or whose security answer
    is wrong, or that carries no token, is answered 400 by the serverless
    function before anything is called or logged. *)
Theorem handler_gates_first (processEnv : ProcessEnv)
    (req : Vercel.VercelRequest) (env : Env) :
  Vercel.method req = Some (js "POST") ->
  passesGates toLowerCase (Vercel.body req) = false ->
  snd (exec env (handler toLowerCase ToString createTransport processEnv req))
  = []
  /\ exists error,
      fst (exec env (handler toLowerCase ToString createTransport processEnv req))
      = Normal {| status := 400; json := errorJson error |}.
Proof.
  intros Hpost Hfail. handler_cases processEnv req env;
    try contradiction; try congruence.
  split; [reflexivity | exists error; reflexivity].
Qed.


(** X16: a 200 of the serverless function means that the request was a
    POST that passed the three gates, that no call was rejected, and that
    both mails were handed to the transporter, the notification to the
    configured Gmail address first and the auto-reply second. *)
Theorem handler_ok (processEnv : ProcessEnv) (req : Vercel.VercelRequest)
    (env : Env) (response : HttpResponse) :
  fst (exec env (handler toLowerCase ToString createTransport processEnv req))
  = Normal response ->
  status response = 200 ->
  Vercel.method req = Some (js "POST")
  /\ passesGates toLowerCase (Vercel.body req) = true
  /\ rejections
       (snd (exec env
               (handler toLowerCase ToString createTransport processEnv req)))
     = []
  /\ exists gmailUser gmailAppPassword formData,
      credentials processEnv = Some (gmailUser, gmailAppPassword)
      /\ formDataOf (Vercel.body req) = Some formData
      /\ mails
           (snd (exec env
                   (handler toLowerCase ToString createTransport processEnv
                      req)))
         = [mailOptions formData gmailUser;
            autoReplyOptions formData gmailUser].
Proof.
  intros Hresponse Hstatus.
  handler_cases processEnv req env;
    injection Hresponse as <-; try discriminate Hstatus.
  destruct (verification_facts _ _ _ _ _ Hverify) as (Hmails & Hclean & _).
  destruct (send_facts _ _ _ _ _ _ _ Hsend) as (_ & _ & Hok & _).
  destruct (Result.success sent); [|discriminate Hstatus].
  destruct (Hok eq_refl) as (_ & Hsent & Hnone).
  split; [exact Hmethod|]. split; [exact Hgates|].
  split; [rewrite rejections_app, (Hclean Hvalue), Hnone; reflexivity|].
  exists gmailUser, gmailAppPassword, formData.
  split; [exact Hcredentials|]. split; [exact Hform|].
  rewrite mails_app, Hmails, Hsent. reflexivity.
Qed.





End HandlerProperties.

(** ** The route of the Express server *)

Section RouteProperties.

Variable toLowerCase : jsstring -> jsstring.
Variable ToString : JsValue -> jsstring.
Variable createTransport : TransportOptions -> MailTransporter.

(** The runs of the route. *)
Lemma contactRoute_run (processEnv : ProcessEnv) (body : JsValue) (env : Env) :
  let result :=
    exec env (contactRoute toLowerCase ToString createTransport processEnv body) in
  let failed :=
    {| status := 500;
       json :=
         failureJson
           (js "メールの送信に失敗しました。しばらく経ってから再度お試しください。") |} in
  (passesGates toLowerCase body = false
   /\ exists error,
       In error routeErrors
       /\ result = (Normal {| status := 400; json := failureJson error |}, []))
  \/ (passesGates toLowerCase body = true
      /\ exists value more,
          run env
            (verifyRecaptcha (tokenText ToString (getProp body (js "recaptchaToken")))
               (RECAPTCHA_SECRET_KEY processEnv)) []
          = (Normal value, more)
          /\ (truthy value = false
              /\ result
                 = (Normal
                      {| status := 400;
                         json :=
                           failureJson
                             (js "reCAPTCHAの認証に失敗しました。もう一度お試しください。") |},
                    more)
              \/ truthy value = true
                 /\ credentials processEnv = None
                 /\ result
                    = (Normal failed,
                       more
                       ++ [Logged LevelError
                             [JString (js "Failed to send contact email:");
                              Error
                                (js "GMAIL_USER and GMAIL_APP_PASSWORD environment variables are required")]])
              \/ truthy value = true
                 /\ (exists gmailUser gmailAppPassword,
                        credentials processEnv
                        = Some (gmailUser, gmailAppPassword))
                 /\ formDataOf body = None
                 /\ result
                    = (Normal failed,
                       more
                       ++ [Logged LevelError
                             [JString (js "Failed to send contact email:");
                              TypeError]])
              \/ truthy value = true
                 /\ exists gmailUser gmailAppPassword formData,
                     credentials processEnv = Some (gmailUser, gmailAppPassword)
                     /\ formDataOf body = Some formData
                     /\ let transporter :=
                          createMailTransporter createTransport gmailUser
                            gmailAppPassword in
                        let first :=
                          SendMail transporter
                            (serverMailOptions formData gmailUser) in
                        let second :=
                          SendMail transporter
                            (serverAutoReplyOptions formData gmailUser) in
                        (exists reason,
                            result
                            = (Normal failed,
                               more
                               ++ [Called first; Resumed first (Rejected reason);
                                   Logged LevelError
                                     [JString
                                        (js "Failed to send contact email:");
                                      reason]]))
                        \/ (exists reason,
                              result
                              = (Normal failed,
                                 more
                                 ++ [Called first; Resumed first (Fulfilled tt);
                                     Called second;
                                     Resumed second (Rejected reason);
                                     Logged LevelError
                                       [JString
                                          (js "Failed to send contact email:");
                                        reason]]))
                        \/ result
                           = (Normal
                                {| status := 200;
                                   json :=
                                     successJson
                                       (JString
                                          (js "お問い合わせを受け付けました。担当者より2営業日以内にご連絡いたします。")) |},
                              more
                              ++ [Called first; Resumed first (Fulfilled tt);
                                  Called second; Resumed second (Fulfilled tt);
                                  Logged LevelLog
                                    [JString
                                       (js "Contact form submitted successfully from: "
                                        ++ email formData)]]))).
Proof.
  intros result failed. subst result. unfold exec, contactRoute.
  rewrite run_tryCatch. unfold passesGates.
  destruct (validateContactForm body) eqn:Hvalid; cbn [negb andb].
  2:{ left. split; [reflexivity|]. eexists. split; [|reflexivity].
      unfold routeErrors. find_piece. }
  destruct (validateContactForm_answer body Hvalid) as [answer Hanswer].
  rewrite Hanswer. cbn [stringArgument bind].
  destruct (validateSecurityAnswer toLowerCase answer); cbn [negb andb].
  2:{ left. split; [reflexivity|]. eexists. split; [|reflexivity].
      unfold routeErrors. find_piece. }
  destruct (truthy (getProp body (js "recaptchaToken"))); cbn [negb andb].
  2:{ left. split; [reflexivity|]. eexists. split; [|reflexivity].
      unfold routeErrors. find_piece. }
  right. split; [reflexivity|].
  rewrite run_bind.
  destruct (verifyRecaptcha_run_any
              (tokenText ToString (getProp body (js "recaptchaToken")))
              (RECAPTCHA_SECRET_KEY processEnv) env [])
    as (value & more & Hrun & _).
  rewrite Hrun. cbn [app]. exists value, more. split; [reflexivity|].
  destruct (truthy value); cbn [negb].
  2:{ left. split; reflexivity. }
  right. unfold serverCreateMailTransporter.
  destruct (credentials processEnv) as [[gmailUser gmailAppPassword]|] eqn:Hc.
  2:{ left. split; [reflexivity|]. split; reflexivity. }
  right. cbn [bind].
  assert (Huser : GMAIL_USER processEnv = Some gmailUser).
  { unfold credentials in Hc.
    destruct (GMAIL_USER processEnv) as [[|u us]|]; try discriminate Hc.
    destruct (GMAIL_APP_PASSWORD processEnv) as [[|p ps]|];
      try discriminate Hc.
    injection Hc as <- _. reflexivity. }
  rewrite Huser. cbn [default from_option]. unfold id.
  destruct (formDataOf body) as [formData|].
  2:{ left. split; [reflexivity|].
      split; [exists gmailUser, gmailAppPassword; reflexivity|].
      split; reflexivity. }
  right. split; [reflexivity|].
  exists gmailUser, gmailAppPassword, formData.
  split; [reflexivity|]. split; [reflexivity|].
  cbv zeta.
  set (first :=
         SendMail (createMailTransporter createTransport gmailUser gmailAppPassword)
           (serverMailOptions formData gmailUser)).
  set (second :=
         SendMail (createMailTransporter createTransport gmailUser gmailAppPassword)
           (serverAutoReplyOptions formData gmailUser)).
  rewrite run_bind, run_await.
  match goal with
  | |- context [env unit ?h first] => destruct (env unit h first) as [[] | reason]
  end.
  2:{ left. exists reason. cbn - [js]. rewrite <- !app_assoc. reflexivity. }
  rewrite run_bind, run_await.
  match goal with
  | |- context [env unit ?h second] =>
    destruct (env unit h second) as [[] | reason]
  end.
  2:{ right. left. exists reason. cbn - [js]. rewrite <- !app_assoc.
      reflexivity. }
  right. right. cbn - [js]. rewrite <- !app_assoc. reflexivity.
Qed.

Ltac route_cases processEnv body env :=
  let Hroute := fresh "Hroute" in
  pose proof (contactRoute_run processEnv body env) as Hroute;
  cbv zeta in Hroute;
  destruct Hroute
    as [(Hgates' & error' & Herror' & Hroute)
       | (Hgates' & value' & rmore & Hverify'
          & [(Hvalue' & Hroute)
            | [(Hvalue' & Hcredentials' & Hroute)
              | [(Hvalue' & (user' & password' & Hcredentials')
                  & Hform' & Hroute)
                | (Hvalue' & user' & password' & formData'
                   & Hcredentials' & Hform'
                   & [(reason' & Hroute)
                     | [(reason' & Hroute) | Hroute]])]]])];
  rewrite Hroute in *; cbn [fst snd] in *.


(** X22: a 200 of the route means that the body passed the three gates,
    that no call was rejected, and that both mails were handed to the
    transporter, the notification first. *)
Theorem contactRoute_ok (processEnv : ProcessEnv) (body : JsValue)
    (env : Env) (response : HttpResponse) :
  fst (exec env
         (contactRoute toLowerCase ToString createTransport processEnv body))
  = Normal response ->
  status response = 200 ->
  passesGates toLowerCase body = true
  /\ rejections
       (snd (exec env
               (contactRoute toLowerCase ToString createTransport processEnv
                  body)))
     = []
  /\ exists gmailUser gmailAppPassword formData,
      credentials processEnv = Some (gmailUser, gmailAppPassword)
      /\ formDataOf body = Some formData
      /\ mails
           (snd (exec env
                   (contactRoute toLowerCase ToString createTransport
                      processEnv body)))
         = [serverMailOptions formData gmailUser;
            serverAutoReplyOptions formData gmailUser].
Proof.
  intros Hresponse Hstatus.
  route_cases processEnv body env;
    injection Hresponse as <-; try discriminate Hstatus.
  destruct (verification_facts _ _ _ _ _ Hverify') as (Hmails & Hclean & _).
  split; [exact Hgates'|].
  split; [rewrite rejections_app, (Hclean Hvalue'); reflexivity|].
  exists user', password', formData'.
  split; [exact Hcredentials'|]. split; [exact Hform'|].
  rewrite mails_app, Hmails. reflexivity.
Qed.


(** X24: a body that is not a valid form, or whose security answer is
    wrong, or that carries no token, is answered 400 by the route before
    anything is called or logged. *)
Theorem contactRoute_gates_first (processEnv : ProcessEnv) (body : JsValue)
    (env : Env) :
  passesGates toLowerCase body = false ->
  snd (exec env
         (contactRoute toLowerCase ToString createTransport processEnv body))
  = []
  /\ exists error,
      fst (exec env
             (contactRoute toLowerCase ToString createTransport processEnv
                body))
      = Normal {| status := 400; json := failureJson error |}.
Proof.
  intros Hfail. route_cases processEnv body env; try congruence.
  split; [reflexivity | exists error'; reflexivity].
Qed.

End RouteProperties.

(** ** The two variants *)


(** ** The mails of the two variants *)

Lemma withoutSpaces_concat (pieces pieces' : list jsstring) :
  Forall2 (fun p p' => withoutSpaces p = withoutSpaces p') pieces pieces' ->
  withoutSpaces (List.concat pieces) = withoutSpaces (List.concat pieces').
Proof.
  induction 1 as [|p p' pieces pieces' Hp _ IH]; [reflexivity|].
  cbn [List.concat]. unfold withoutSpaces in *.
  rewrite !List.filter_app, Hp, IH. reflexivity.
Qed.

Ltac same_piece :=
  lazymatch goal with
  | |- withoutSpaces ?p = withoutSpaces ?q =>
    first [ constr_eq p q; exact eq_refl | vm_compute; exact eq_refl ]
  end.

Ltac server_text :=
  cbn [text List.concat]; rewrite !app_nil_r, !app_assoc;
  rewrite !(trim_app_blank _ (js "      ")) by reflexivity;
  rewrite !(trim_app_blank _ (js "        ")) by reflexivity;
  reflexivity.

(** X26: the mails of the two variants differ in the indentation of
    the HTML body only: sender, recipient, reply address, subject and plain
    text are equal, and so are the HTML bodies without their space
    characters. *)
Theorem server_mails_same_but_indentation (formData : ContactFormData)
    (gmailUser : jsstring) :
  (from (serverMailOptions formData gmailUser)
   = from (mailOptions formData gmailUser)
   /\ to (serverMailOptions formData gmailUser)
      = to (mailOptions formData gmailUser)
   /\ replyTo (serverMailOptions formData gmailUser)
      = replyTo (mailOptions formData gmailUser)
   /\ subject (serverMailOptions formData gmailUser)
      = subject (mailOptions formData gmailUser)
   /\ text (serverMailOptions formData gmailUser)
      = text (mailOptions formData gmailUser)
   /\ withoutSpaces (html (serverMailOptions formData gmailUser))
      = withoutSpaces (html (mailOptions formData gmailUser)))
  /\ (from (serverAutoReplyOptions formData gmailUser)
      = from (autoReplyOptions formData gmailUser)
      /\ to (serverAutoReplyOptions formData gmailUser)
         = to (autoReplyOptions formData gmailUser)
      /\ replyTo (serverAutoReplyOptions formData gmailUser)
         = replyTo (autoReplyOptions formData gmailUser)
      /\ subject (serverAutoReplyOptions formData gmailUser)
         = subject (autoReplyOptions formData gmailUser)
      /\ text (serverAutoReplyOptions formData gmailUser)
         = text (autoReplyOptions formData gmailUser)
      /\ withoutSpaces (html (serverAutoReplyOptions formData gmailUser))
         = withoutSpaces (html (autoReplyOptions formData gmailUser))).
Proof.
  split.
  - do 4 (split;
          [unfold serverMailOptions, mailOptions;
           cbn [from to replyTo subject]; reflexivity|]).
    split.
    + unfold serverMailOptions, mailOptions. server_text.
    + unfold serverMailOptions, mailOptions; cbn [html].
      apply withoutSpaces_concat.
      repeat (constructor; [same_piece|]). constructor.
  - do 4 (split;
          [unfold serverAutoReplyOptions, autoReplyOptions;
           cbn [from to replyTo subject]; reflexivity|]).
    split.
    + unfold serverAutoReplyOptions, autoReplyOptions. server_text.
    + unfold serverAutoReplyOptions, autoReplyOptions; cbn [html].
      apply withoutSpaces_concat.
      repeat (constructor; [same_piece|]). constructor.
Qed.

(** ** The HTML bodies of the route *)

Lemma serverMailOptions_html_noTagInS (formData : ContactFormData)
    (gmailUser : jsstring) :
  noTagInS (html (serverMailOptions formData gmailUser)) = true.
Proof.
  unfold serverMailOptions; cbn [html]. apply noTagInS_concat.
  repeat (constructor; [safe_piece|]). constructor.
Qed.

Lemma serverAutoReplyOptions_html_noTagInSc (formData : ContactFormData)
    (gmailUser : jsstring) :
  noTagInSc (html (serverAutoReplyOptions formData gmailUser)) = true.
Proof.
  unfold serverAutoReplyOptions; cbn [html]. apply noTagInSc_concat.
  repeat (constructor; [safe_piece_sc|]). constructor.
Qed.

Lemma serverMailOptions_html_markup (formData formData' : ContactFormData)
    (gmailUser gmailUser' : jsstring) :
  markup (html (serverMailOptions formData gmailUser))
  = markup (html (serverMailOptions formData' gmailUser')).
Proof.
  unfold serverMailOptions; cbn [html]. markup_pieces. reflexivity.
Qed.

Lemma serverAutoReplyOptions_html_markup (formData formData' : ContactFormData)
    (gmailUser gmailUser' : jsstring) :
  isTruthy (company formData) = isTruthy (company formData') ->
  isTruthy (phone formData) = isTruthy (phone formData') ->
  markup (html (serverAutoReplyOptions formData gmailUser))
  = markup (html (serverAutoReplyOptions formData' gmailUser')).
Proof.
  intros Hcompany Hphone.
  unfold serverAutoReplyOptions; cbn [html].
  rewrite !ifTruthy_isTruthy, Hcompany, Hphone.
  destruct (isTruthy (company formData')), (isTruthy (phone formData'));
    markup_pieces; reflexivity.
Qed.

(** X27: the HTML bodies that the route builds never hold [<script>],
    and the characters that delimit tags and attribute values in them are
    those of the template alone, the same for all field values (in the
    auto-reply, given which optional fields are filled). *)
Theorem server_html_escaped :
  (forall (formData : ContactFormData) (gmailUser : jsstring),
      includes (html (serverMailOptions formData gmailUser)) (js "<script>")
      = false
      /\ includes (html (serverAutoReplyOptions formData gmailUser))
           (js "<script>")
         = false)
  /\ (forall (formData formData' : ContactFormData)
             (gmailUser gmailUser' : jsstring),
        markup (html (serverMailOptions formData gmailUser))
        = markup (html (serverMailOptions formData' gmailUser')))
  /\ (forall (formData formData' : ContactFormData)
             (gmailUser gmailUser' : jsstring),
        isTruthy (company formData) = isTruthy (company formData') ->
        isTruthy (phone formData) = isTruthy (phone formData') ->
        markup (html (serverAutoReplyOptions formData gmailUser))
        = markup (html (serverAutoReplyOptions formData' gmailUser'))).
Proof.
  split; [|split].
  - intros formData gmailUser. split.
    + apply (noTagInS_excludes _ (js "cript>")).
      apply serverMailOptions_html_noTagInS.
    + apply (noTagInSc_excludes _ (js "ript>")).
      apply serverAutoReplyOptions_html_noTagInSc.
  - exact serverMailOptions_html_markup.
  - exact serverAutoReplyOptions_html_markup.
Qed.

(** ** Instances *)

Lemma escapeHtml_injective_witness : js "Tom & Jerry" = js "Tom & Jerry".
Proof.
  apply (escapeHtml_injective (js "Tom & Jerry") (js "Tom & Jerry")).
  reflexivity.
Defined.

Lemma escapeHtml_output_plain_witness :
  59%N <> 60%N /\ 59%N <> 62%N /\ 59%N <> 34%N /\ 59%N <> 39%N.
Proof.
  apply (escapeHtml_output_plain (js "<b>") 59%N).
  vm_compute. auto.
Defined.

Lemma handler_method_not_allowed_witness :
  exec fulfilAll
    (handler toLowerCaseBasicLatin noToString oneTransport configured
       (getRequest tokenBody))
  = (Normal {| status := 405; json := errorJson (js "Method not allowed") |},
     []).
Proof.
  apply (handler_method_not_allowed toLowerCaseBasicLatin noToString
           oneTransport configured (getRequest tokenBody) fulfilAll).
  vm_compute. discriminate.
Defined.

Lemma handler_gates_first_witness :
  snd (exec fulfilAll
         (handler toLowerCaseBasicLatin noToString oneTransport configured
            (postRequest validBody)))
  = [].
Proof.
  refine (proj1 (handler_gates_first toLowerCaseBasicLatin noToString
                   oneTransport configured (postRequest validBody) fulfilAll
                   _ _));
    vm_compute; reflexivity.
Defined.

Lemma handler_ok_witness :
  passesGates toLowerCaseBasicLatin tokenBody = true.
Proof.
  refine (proj1 (proj2 (handler_ok toLowerCaseBasicLatin noToString
                          oneTransport configured (postRequest tokenBody)
                          fulfilAll
                          {| status := 200;
                             json :=
                               successJson
                                 (JString
                                    (js "お問い合わせを受け付けました。担当者より2営業日以内にご連絡いたします。")) |}
                          _ _)));
    vm_compute; reflexivity.
Defined.




Lemma contactRoute_ok_witness :
  passesGates toLowerCaseBasicLatin tokenBody = true.
Proof.
  refine (proj1 (contactRoute_ok toLowerCaseBasicLatin noToString oneTransport
                   configured tokenBody fulfilAll
                   {| status := 200;
                      json :=
                        successJson
                          (JString
                             (js "お問い合わせを受け付けました。担当者より2営業日以内にご連絡いたします。")) |}
                   _ _));
    vm_compute; reflexivity.
Defined.


Lemma contactRoute_gates_first_witness :
  snd (exec fulfilAll
         (contactRoute toLowerCaseBasicLatin noToString oneTransport configured
            validBody))
  = [].
Proof.
  refine (proj1 (contactRoute_gates_first toLowerCaseBasicLatin noToString
                   oneTransport configured validBody fulfilAll _));
    vm_compute; reflexivity.
Defined.

